(** * Analytics service (src/analytics/app.py): event store and rollup queries

    A shallow embedding of the DuckDB-backed analytics service: the three
    tables created by [init_database], the two insert handlers, and the
    aggregate queries behind [get_user_analytics] and [get_system_analytics].

    Conventions of the embedding.
    - A table is the list of its rows in insertion order; the catalogue
      records, per table name, whether the table exists and with which
      columns.
    - [duration_seconds] (SQL FLOAT, Python float) is an exact rational [Q];
      every concrete value used below is a dyadic number that a float holds
      exactly.
    - A timestamp is a number of microseconds on a single naive time line;
      a calendar day is 86400 seconds long.
    - What SQL leaves to the engine (the order of rows that tie under
      ORDER BY) is stated as a relation on answers next to the executable
      query, which fixes one such order.
    - An insert is refused on the conditions the handler's text shows: a
      missing table, a user_id or document_id that is no UUID, a gas_used
      beyond BIGINT.  Further refusals of the engine (a duration beyond the
      FLOAT range, a table whose columns differ from the declared ones) and
      the rounding of a stored duration to 32 bits are not reproduced;
      statements about an acknowledged insert take the acknowledgement as
      given. *)

From Stdlib Require Import ZArith QArith Qround Lia Permutation Sorted Ascii.
From stdpp Require Import base tactics decidable option list strings.

Local Open Scope Z_scope.
Set Warnings "-register-all".

(** ** Values *)

(** A UUID is the 128-bit integer the engine stores. *)
Abbreviation uuid := N (only parsing).

(** A naive timestamp in microseconds. *)
Abbreviation timestamp := Z (only parsing).

(** A JSON value, for the free-form [metadata] dictionary. *)
Inductive json : Type :=
  | JNull
  | JBool (b : bool)
  | JNum (q : Q)
  | JStr (s : string)
  | JArr (items : list json)
  | JObj (fields : list (string * json)).

Definition usec_per_day : Z := 86400000000.

(** DATE_TRUNC('day', t): midnight of the calendar day of [t]. *)
Definition date_trunc_day (t : timestamp) : timestamp :=
  t - t mod usec_per_day.

(** CURRENT_DATE, as the timestamp of its midnight. *)
Definition current_date (now : timestamp) : timestamp := date_trunc_day now.

(** INTERVAL 'n days'. *)
Definition interval_days (n : Z) : Z := n * usec_per_day.

(** ** Rows of the three tables *)

Record DocumentRow : Type := {
  de_id : uuid;
  de_user_id : uuid;
  de_document_id : option uuid;
  de_event_type : string;
  de_document_type : option string;
  de_ai_service : option string;
  de_duration_seconds : option Q;
  de_status : string;
  de_metadata : option (list (string * json));
  de_created_at : timestamp
}.

Record BlockchainRow : Type := {
  be_id : uuid;
  be_user_id : uuid;
  be_document_id : option uuid;
  be_transaction_id : option string;
  be_network : string;
  be_transaction_type : string;
  be_duration_seconds : option Q;
  be_status : string;
  be_gas_used : option Z;
  be_metadata : option (list (string * json));
  be_created_at : timestamp
}.

Record SessionRow : Type := {
  us_id : uuid;
  us_user_id : uuid;
  us_session_start : timestamp;
  us_session_end : option timestamp;
  us_ip_address : option string;
  us_user_agent : option string;
  us_actions_count : option Z;
  us_created_at : timestamp
}.

(** ** Catalogue *)

Inductive sql_type : Type :=
  | TUuid | TVarchar | TFloat | TJson | TTimestamp | TBigint | TInteger.

Inductive default_expr : Type :=
  | GenRandomUuid | CurrentTimestamp | IntLiteral (z : Z).

Record column : Type := {
  col_name : string;
  col_type : sql_type;
  col_not_null : bool;
  col_default : option default_expr
}.

Definition col (name : string) (ty : sql_type) : column :=
  {| col_name := name; col_type := ty; col_not_null := false; col_default := None |}.

Definition col_nn (name : string) (ty : sql_type) : column :=
  {| col_name := name; col_type := ty; col_not_null := true; col_default := None |}.

Definition col_def (name : string) (ty : sql_type) (d : default_expr) : column :=
  {| col_name := name; col_type := ty; col_not_null := false; col_default := Some d |}.

Record table (A : Type) : Type := {
  tbl_columns : list column;
  tbl_rows : list A
}.
Arguments tbl_columns {A} _.
Arguments tbl_rows {A} _.

Record database : Type := {
  document_events : option (table DocumentRow);
  blockchain_events : option (table BlockchainRow);
  user_sessions : option (table SessionRow)
}.

Definition document_events_columns : list column :=
  [ col_def "id" TUuid GenRandomUuid;
    col_nn "user_id" TUuid;
    col "document_id" TUuid;
    col_nn "event_type" TVarchar;
    col "document_type" TVarchar;
    col "ai_service" TVarchar;
    col "duration_seconds" TFloat;
    col_nn "status" TVarchar;
    col "metadata" TJson;
    col_def "created_at" TTimestamp CurrentTimestamp ].

Definition blockchain_events_columns : list column :=
  [ col_def "id" TUuid GenRandomUuid;
    col_nn "user_id" TUuid;
    col "document_id" TUuid;
    col "transaction_id" TVarchar;
    col_nn "network" TVarchar;
    col_nn "transaction_type" TVarchar;
    col "duration_seconds" TFloat;
    col_nn "status" TVarchar;
    col "gas_used" TBigint;
    col "metadata" TJson;
    col_def "created_at" TTimestamp CurrentTimestamp ].

Definition user_sessions_columns : list column :=
  [ col_def "id" TUuid GenRandomUuid;
    col_nn "user_id" TUuid;
    col_nn "session_start" TTimestamp;
    col "session_end" TTimestamp;
    col "ip_address" TVarchar;
    col "user_agent" TVarchar;
    col_def "actions_count" TInteger (IntLiteral 0);
    col_def "created_at" TTimestamp CurrentTimestamp ].

(** CREATE TABLE IF NOT EXISTS: an existing table is left as it is, whatever
    its columns; a missing one is created empty. *)
Definition create_table_if_not_exists {A : Type}
    (cols : list column) (slot : option (table A)) : option (table A) :=
  match slot with
  | Some t => Some t
  | None => Some {| tbl_columns := cols; tbl_rows := [] |}
  end.

Definition init_database (db : database) : database :=
  let db1 :=
    {| document_events :=
         create_table_if_not_exists document_events_columns (document_events db);
       blockchain_events := blockchain_events db;
       user_sessions := user_sessions db |} in
  let db2 :=
    {| document_events := document_events db1;
       blockchain_events :=
         create_table_if_not_exists blockchain_events_columns (blockchain_events db1);
       user_sessions := user_sessions db1 |} in
  {| document_events := document_events db2;
     blockchain_events := blockchain_events db2;
     user_sessions :=
       create_table_if_not_exists user_sessions_columns (user_sessions db2) |}.

(** A database file that holds no table yet. *)
Definition empty_database : database :=
  {| document_events := None; blockchain_events := None; user_sessions := None |}.

(** What the claims about tables observe: which tables exist, with which
    columns and how many rows. *)
Definition table_shape {A : Type} (slot : option (table A)) : option (list column * nat) :=
  match slot with
  | Some t => Some (tbl_columns t, length (tbl_rows t))
  | None => None
  end.

Definition database_shape (db : database) :
    option (list column * nat) * option (list column * nat) * option (list column * nat) :=
  (table_shape (document_events db),
   table_shape (blockchain_events db),
   table_shape (user_sessions db)).

(** ** HTTP outcomes *)

(** A handler returns its body or raises HTTPException(status_code); 422 is
    the framework's answer to a body that does not fit the pydantic model. *)
Inductive response (A : Type) : Type :=
  | Ok (body : A)
  | HTTPException (status_code : Z).
Arguments Ok {A} _.
Arguments HTTPException {A} _.

#[global] Instance response_ret : MRet response := fun A a => Ok a.

#[global] Instance response_bind : MBind response := fun A B k r =>
  match r with
  | Ok a => k a
  | HTTPException c => HTTPException c
  end.

(** A statement that raised inside [try ... except Exception]. *)
Definition storage_error {A : Type} : response A := HTTPException 500.

Definition validation_error {A : Type} : response A := HTTPException 422.

(** Reading a table that the catalogue does not have raises. *)
Definition scan {A : Type} (slot : option (table A)) : response (list A) :=
  match slot with
  | Some t => Ok (tbl_rows t)
  | None => storage_error
  end.

(** ** Request bodies *)

(** A JSON body as the framework sees it: a key that is absent or null is
    [None]. *)
Record DocumentPayload : Type := {
  dp_user_id : option string;
  dp_document_id : option string;
  dp_event_type : option string;
  dp_document_type : option string;
  dp_ai_service : option string;
  dp_duration_seconds : option Q;
  dp_status : option string;
  dp_metadata : option (list (string * json))
}.

Record BlockchainPayload : Type := {
  bp_user_id : option string;
  bp_document_id : option string;
  bp_transaction_id : option string;
  bp_network : option string;
  bp_transaction_type : option string;
  bp_duration_seconds : option Q;
  bp_status : option string;
  bp_gas_used : option Z;
  bp_metadata : option (list (string * json))
}.

(** The pydantic models: a field typed [str] is required, a field typed
    [Optional[...] = None] is not. *)
Record DocumentEvent : Type := {
  user_id : string;
  document_id : option string;
  event_type : string;
  document_type : option string;
  ai_service : option string;
  duration_seconds : option Q;
  status : string;
  metadata : option (list (string * json))
}.

Record BlockchainEvent : Type := {
  b_user_id : string;
  b_document_id : option string;
  b_transaction_id : option string;
  b_network : string;
  b_transaction_type : string;
  b_duration_seconds : option Q;
  b_status : string;
  b_gas_used : option Z;
  b_metadata : option (list (string * json))
}.

Record UserSession : Type := {
  s_user_id : string;
  session_start : string;
  session_end : option string;
  ip_address : option string;
  user_agent : option string;
  actions_count : Z
}.

(** Model validation: every required field must be there; nothing else is
    asked of it. *)
Definition validate_DocumentEvent (p : DocumentPayload) : option DocumentEvent :=
  u ← dp_user_id p;
  e ← dp_event_type p;
  s ← dp_status p;
  Some {| user_id := u; document_id := dp_document_id p; event_type := e;
          document_type := dp_document_type p; ai_service := dp_ai_service p;
          duration_seconds := dp_duration_seconds p; status := s;
          metadata := dp_metadata p |}.

Definition validate_BlockchainEvent (p : BlockchainPayload) : option BlockchainEvent :=
  u ← bp_user_id p;
  n ← bp_network p;
  t ← bp_transaction_type p;
  s ← bp_status p;
  Some {| b_user_id := u; b_document_id := bp_document_id p;
          b_transaction_id := bp_transaction_id p; b_network := n;
          b_transaction_type := t; b_duration_seconds := bp_duration_seconds p;
          b_status := s; b_gas_used := bp_gas_used p; b_metadata := bp_metadata p |}.

Record Ack : Type := { message : string }.

Definition recorded : Ack := {| message := "Event recorded successfully" |}.

(** BIGINT holds a signed 64-bit integer. *)
Definition fits_bigint (z : Z) : bool :=
  (- 2 ^ 63 <=? z) && (z <? 2 ^ 63).

Section Handlers.

(** The engine's cast from VARCHAR to UUID; [None] is a conversion
    error. *)
Variable uuid_of_string : string -> option uuid.

(** Binding an optional string to a nullable UUID column. *)
Definition cast_optional_uuid (s : option string) : option (option uuid) :=
  match s with
  | None => Some None
  | Some x => Some <$> uuid_of_string x
  end.

Definition cast_optional_bigint (z : option Z) : option (option Z) :=
  match z with
  | None => Some None
  | Some x => if fits_bigint x then Some (Some x) else None
  end.

(** INSERT INTO document_events: [fresh] is what gen_random_uuid() returns
    and [now] what CURRENT_TIMESTAMP reads; any failure leaves the table
    as it was and surfaces as status 500. *)
Definition record_document_event (fresh : uuid) (now : timestamp)
    (event : DocumentEvent) (db : database) : response Ack * database :=
  match document_events db,
        uuid_of_string (user_id event),
        cast_optional_uuid (document_id event) with
  | Some t, Some u, Some d =>
      let row :=
        {| de_id := fresh; de_user_id := u; de_document_id := d;
           de_event_type := event_type event;
           de_document_type := document_type event;
           de_ai_service := ai_service event;
           de_duration_seconds := duration_seconds event;
           de_status := status event;
           de_metadata := metadata event;
           de_created_at := now |} in
      (Ok recorded,
       {| document_events :=
            Some {| tbl_columns := tbl_columns t; tbl_rows := tbl_rows t ++ [row] |};
          blockchain_events := blockchain_events db;
          user_sessions := user_sessions db |})
  | _, _, _ => (storage_error, db)
  end.

Definition record_blockchain_event (fresh : uuid) (now : timestamp)
    (event : BlockchainEvent) (db : database) : response Ack * database :=
  match blockchain_events db,
        uuid_of_string (b_user_id event),
        cast_optional_uuid (b_document_id event),
        cast_optional_bigint (b_gas_used event) with
  | Some t, Some u, Some d, Some g =>
      let row :=
        {| be_id := fresh; be_user_id := u; be_document_id := d;
           be_transaction_id := b_transaction_id event;
           be_network := b_network event;
           be_transaction_type := b_transaction_type event;
           be_duration_seconds := b_duration_seconds event;
           be_status := b_status event;
           be_gas_used := g;
           be_metadata := b_metadata event;
           be_created_at := now |} in
      (Ok recorded,
       {| document_events := document_events db;
          blockchain_events :=
            Some {| tbl_columns := tbl_columns t; tbl_rows := tbl_rows t ++ [row] |};
          user_sessions := user_sessions db |})
  | _, _, _, _ => (storage_error, db)
  end.

(** POST /events/document and POST /events/blockchain: the framework
    validates the body against the model, then calls the handler. *)
Definition post_events_document (fresh : uuid) (now : timestamp)
    (body : DocumentPayload) (db : database) : response Ack * database :=
  match validate_DocumentEvent body with
  | Some event => record_document_event fresh now event db
  | None => (validation_error, db)
  end.

Definition post_events_blockchain (fresh : uuid) (now : timestamp)
    (body : BlockchainPayload) (db : database) : response Ack * database :=
  match validate_BlockchainEvent body with
  | Some event => record_blockchain_event fresh now event db
  | None => (validation_error, db)
  end.

End Handlers.

(** ** SQL aggregates and Python glue *)

Local Open Scope Q_scope.

Definition Qsum (xs : list Q) : Q := foldr Qplus 0 xs.

(** COUNT( * ) over the rows given. *)
Definition sql_count {A : Type} (rows : list A) : Z := Z.of_nat (length rows).

(** COUNT(CASE WHEN p THEN 1 END): the rows on which [p] holds. *)
Definition sql_count_when {A : Type} (P : A -> Prop) `{!forall x, Decision (P x)}
    (rows : list A) : Z :=
  sql_count (filter P rows).

(** AVG(c): the mean of the non-null cells, NULL when there is none. *)
Definition sql_avg (cells : list (option Q)) : option Q :=
  match omap id cells with
  | [] => None
  | v :: vs => Some (Qsum (v :: vs) / inject_Z (sql_count (v :: vs)))
  end.

(** SUM(c): the sum of the non-null cells, NULL when there is none. *)
Definition sql_sum (cells : list (option Z)) : option Z :=
  match omap id cells with
  | [] => None
  | v :: vs => Some (foldr Z.add 0%Z (v :: vs))
  end.

(** COUNT(DISTINCT c) over non-null cells. *)
Definition sql_count_distinct {K : Type} `{!EqDecision K} (cells : list K) : Z :=
  sql_count (remove_dups cells).

(** GROUP BY key: one group per distinct key, each with its rows in scan
    order.  The order of the groups themselves is the engine's business; this
    function lists them by last occurrence of the key. *)
Definition group_by {A K : Type} `{!EqDecision K} (key : A -> K) (rows : list A) :
    list (K * list A) :=
  (fun k => (k, filter (fun r => key r = k) rows)) <$> remove_dups (key <$> rows).

(** ORDER BY as a stable insertion sort under a total preorder [le]. *)
Fixpoint insert_by {A : Type} (le : A -> A -> bool) (x : A) (l : list A) : list A :=
  match l with
  | [] => [x]
  | y :: l' => if le x y then x :: y :: l' else y :: insert_by le x l'
  end.

Definition order_by {A : Type} (le : A -> A -> bool) (l : list A) : list A :=
  foldr (insert_by le) [] l.

(** Python's [x or 0] on a fetched cell. *)
Definition or_0 (cell : option Z) : Z := default 0%Z cell.

Definition or_0Q (cell : option Q) : Q := default 0 cell.

(** Round to the nearest integer, an exact half going to the even side. *)
Definition round_half_even (q : Q) : Z :=
  let f := Qfloor q in
  match Qcompare (q - inject_Z f) (1 # 2) with
  | Lt => f
  | Gt => (f + 1)%Z
  | Eq => if Z.even f then f else (f + 1)%Z
  end.

(** Python's [round(x, 2)]. *)
Definition round_2 (q : Q) : Q := round_half_even (q * 100) # 100.

(** ** The queries of get_user_analytics *)

Definition of_user (u : uuid) (rows : list DocumentRow) : list DocumentRow :=
  filter (fun r => de_user_id r = u) rows.

Definition bc_of_user (u : uuid) (rows : list BlockchainRow) : list BlockchainRow :=
  filter (fun r => be_user_id r = u) rows.

(** The row fetched by the document statistics query. *)
Record DocStatsRow : Type := {
  ds_total_documents : option Z;
  ds_successful_documents : option Z;
  ds_failed_documents : option Z;
  ds_avg_generation_time : option Q;
  ds_status_changes : option Z
}.

Definition doc_stats (u : uuid) (rows : list DocumentRow) : DocStatsRow :=
  let mine := of_user u rows in
  {| ds_total_documents := Some (sql_count mine);
     ds_successful_documents :=
       Some (sql_count_when (fun r => de_status r = "success"%string) mine);
     ds_failed_documents :=
       Some (sql_count_when (fun r => de_status r = "error"%string) mine);
     ds_avg_generation_time := sql_avg (de_duration_seconds <$> mine);
     ds_status_changes :=
       Some (sql_count_when (fun r => de_event_type r = "status_change"%string) mine) |}.

(** Document type distribution, before ORDER BY: one (document_type, count)
    per distinct non-null document_type of the user. *)
Definition doc_type_groups (u : uuid) (rows : list DocumentRow) : list (string * Z) :=
  (fun g => (g.1, sql_count g.2)) <$>
    group_by id (omap de_document_type (of_user u rows)).

(** ORDER BY count DESC. *)
Definition count_desc (a b : string * Z) : bool := (b.2 <=? a.2)%Z.

Definition doc_types (u : uuid) (rows : list DocumentRow) : list (string * Z) :=
  order_by count_desc (doc_type_groups u rows).

(** WHERE user_id = ? AND created_at >= CURRENT_DATE - INTERVAL 'n days'. *)
Definition since_days (n : Z) (now : timestamp) (u : uuid) (rows : list DocumentRow) :
    list DocumentRow :=
  filter (fun r => de_user_id r = u /\
                   (current_date now - interval_days n <= de_created_at r)%Z) rows.

(** A row of the recent-activity result; the body carries it as it is, the
    date rendered with [str]. *)
Record ActivityRow : Type := {
  ar_event_type : string;
  ar_count : Z;
  ar_date : timestamp
}.

Definition activity_groups (now : timestamp) (u : uuid) (rows : list DocumentRow) :
    list ActivityRow :=
  (fun g => {| ar_event_type := g.1.1; ar_count := sql_count g.2; ar_date := g.1.2 |}) <$>
    group_by (fun r => (de_event_type r, date_trunc_day (de_created_at r)))
             (since_days 30 now u rows).

(** ORDER BY date DESC. *)
Definition date_desc (a b : ActivityRow) : bool := (ar_date b <=? ar_date a)%Z.

(** Recent activity: ... ORDER BY date DESC LIMIT 30. *)
Definition recent_activity (now : timestamp) (u : uuid) (rows : list DocumentRow) :
    list ActivityRow :=
  take 30 (order_by date_desc (activity_groups now u rows)).

Record BlockchainStatsRow : Type := {
  bs_total_transactions : option Z;
  bs_successful_transactions : option Z;
  bs_avg_transaction_time : option Q;
  bs_total_gas_used : option Z
}.

Definition blockchain_stats (u : uuid) (rows : list BlockchainRow) : BlockchainStatsRow :=
  let mine := bc_of_user u rows in
  {| bs_total_transactions := Some (sql_count mine);
     bs_successful_transactions :=
       Some (sql_count_when (fun r => be_status r = "success"%string) mine);
     bs_avg_transaction_time := sql_avg (be_duration_seconds <$> mine);
     bs_total_gas_used := sql_sum (be_gas_used <$> mine) |}.

Record TrendRow : Type := {
  tr_date : timestamp;
  tr_avg_duration : option Q;
  tr_event_count : Z
}.

Definition trend_groups (now : timestamp) (u : uuid) (rows : list DocumentRow) :
    list TrendRow :=
  (fun g => {| tr_date := g.1;
               tr_avg_duration := sql_avg (de_duration_seconds <$> g.2);
               tr_event_count := sql_count g.2 |}) <$>
    group_by (fun r => date_trunc_day (de_created_at r)) (since_days 7 now u rows).

(** ORDER BY date. *)
Definition date_asc (a b : TrendRow) : bool := (tr_date a <=? tr_date b)%Z.

Definition performance_trend (now : timestamp) (u : uuid) (rows : list DocumentRow) :
    list TrendRow :=
  order_by date_asc (trend_groups now u rows).

(** ** Response bodies *)

Record DocumentsBody : Type := {
  total : Z;
  successful : Z;
  failed : Z;
  avg_generation_time : Q;
  status_changes : Z
}.

Record BlockchainBody : Type := {
  total_transactions : Z;
  successful_transactions : Z;
  avg_transaction_time : Q;
  total_gas_used : Z
}.

Record TrendBody : Type := {
  date : timestamp;
  avg_duration : Q;
  event_count : Z
}.

Record UserAnalytics : Type := {
  ua_user_id : string;
  documents : DocumentsBody;
  document_types : list (string * Z);
  ua_recent_activity : list ActivityRow;
  blockchain : BlockchainBody;
  ua_performance_trend : list TrendBody
}.

Record SystemAnalytics : Type := {
  total_users : Z;
  total_documents : Z;
  sys_total_transactions : Z;
  avg_document_generation_time : Q;
  avg_blockchain_transaction_time : Q
}.

(** The body assembled after the five queries of get_user_analytics. *)
Definition user_body (user : string) (now : timestamp) (u : uuid)
    (docs : list DocumentRow) (chain : list BlockchainRow) : UserAnalytics :=
  let ds := doc_stats u docs in
  let bs := blockchain_stats u chain in
  {| ua_user_id := user;
     documents :=
       {| total := or_0 (ds_total_documents ds);
          successful := or_0 (ds_successful_documents ds);
          failed := or_0 (ds_failed_documents ds);
          avg_generation_time := round_2 (or_0Q (ds_avg_generation_time ds));
          status_changes := or_0 (ds_status_changes ds) |};
     document_types := doc_types u docs;
     ua_recent_activity := recent_activity now u docs;
     blockchain :=
       {| total_transactions := or_0 (bs_total_transactions bs);
          successful_transactions := or_0 (bs_successful_transactions bs);
          avg_transaction_time := round_2 (or_0Q (bs_avg_transaction_time bs));
          total_gas_used := or_0 (bs_total_gas_used bs) |};
     ua_performance_trend :=
       (fun row => {| date := tr_date row;
                      avg_duration := round_2 (or_0Q (tr_avg_duration row));
                      event_count := tr_event_count row |}) <$>
         performance_trend now u docs |}.

(** The row fetched by the query of get_system_analytics. *)
Record SystemStatsRow : Type := {
  ss_total_users : option Z;
  ss_total_documents : option Z;
  ss_total_transactions : option Z;
  ss_avg_doc_time : option Q;
  ss_avg_blockchain_time : option Q
}.

Definition system_stats (docs : list DocumentRow) (chain : list BlockchainRow) :
    SystemStatsRow :=
  {| ss_total_users := Some (sql_count_distinct (de_user_id <$> docs));
     ss_total_documents :=
       Some (sql_count (filter (fun r => de_event_type r = "generation"%string) docs));
     ss_total_transactions := Some (sql_count chain);
     ss_avg_doc_time :=
       sql_avg (de_duration_seconds <$>
                  filter (fun r => de_event_type r = "generation"%string /\
                                   de_status r = "success"%string) docs);
     ss_avg_blockchain_time :=
       sql_avg (be_duration_seconds <$>
                  filter (fun r => be_status r = "success"%string) chain) |}.

(** GET /analytics/system. *)
Definition get_system_analytics (db : database) : response SystemAnalytics :=
  docs ← scan (document_events db);
  chain ← scan (blockchain_events db);
  let ss := system_stats docs chain in
  Ok {| total_users := or_0 (ss_total_users ss);
        total_documents := or_0 (ss_total_documents ss);
        sys_total_transactions := or_0 (ss_total_transactions ss);
        avg_document_generation_time := or_0Q (ss_avg_doc_time ss);
        avg_blockchain_transaction_time := or_0Q (ss_avg_blockchain_time ss) |}.

Section Reads.

Variable uuid_of_string : string -> option uuid.

(** GET /analytics/user/{user_id}, called at time [now].  The path
    parameter is bound to the UUID column of every query. *)
Definition get_user_analytics (now : timestamp) (user : string) (db : database) :
    response UserAnalytics :=
  docs ← scan (document_events db);
  chain ← scan (blockchain_events db);
  match uuid_of_string user with
  | Some u => Ok (user_body user now u docs chain)
  | None => storage_error
  end.

End Reads.

(** ** A concrete cast for worked examples

    Thirty-two hexadecimal digits, hyphens skipped, read as one 128-bit
    number.  The engine's cast accepts further spellings (a UUID in braces);
    the theorems take the cast as a parameter and do not depend on this
    one. *)

Definition hex_digit (c : Ascii.ascii) : option N :=
  let n := Ascii.N_of_ascii c in
  if (48 <=? n)%N && (n <=? 57)%N then Some (n - 48)%N
  else if (97 <=? n)%N && (n <=? 102)%N then Some (n - 87)%N
  else if (65 <=? n)%N && (n <=? 70)%N then Some (n - 55)%N
  else None.

Fixpoint hex_value (s : string) (count : nat) (acc : N) : option (nat * N) :=
  match s with
  | EmptyString => Some (count, acc)
  | String c rest =>
      if Ascii.eqb c "-"%char then hex_value rest count acc
      else match hex_digit c with
           | Some d => hex_value rest (S count) (acc * 16 + d)%N
           | None => None
           end
  end.

Definition hex_uuid (s : string) : option uuid :=
  match hex_value s 0 0%N with
  | Some (32%nat, v) => Some v
  | _ => None
  end.

(** ** Store states *)

Definition rows_of {A : Type} (slot : option (table A)) : list A :=
  match slot with
  | Some t => tbl_rows t
  | None => []
  end.

(** The state after startup: the three tables exist. *)
Definition initialised (db : database) : Prop :=
  is_Some (document_events db) /\
  is_Some (blockchain_events db) /\
  is_Some (user_sessions db).

(** ** Worked data *)

Definition U1 : string := "00000000-0000-0000-0000-000000000001".
Definition U2 : string := "00000000-0000-0000-0000-000000000002".
Definition U3 : string := "00000000-0000-0000-0000-000000000003".

(** The database right after startup on an empty file. *)
Definition started : database := init_database empty_database.

Definition document_event (user : string) (kind : string) (doc_type : option string)
    (seconds : option Q) (outcome : string) : DocumentEvent :=
  {| user_id := user; document_id := None; event_type := kind;
     document_type := doc_type; ai_service := None;
     duration_seconds := seconds; status := outcome; metadata := None |}.

Definition blockchain_event (user : string) (seconds : option Q) (outcome : string) :
    BlockchainEvent :=
  {| b_user_id := user; b_document_id := None; b_transaction_id := None;
     b_network := "hedera"; b_transaction_type := "anchor";
     b_duration_seconds := seconds; b_status := outcome;
     b_gas_used := None; b_metadata := None |}.

(** Record a batch of events, the n-th one at time [n] with id [n]. *)
Fixpoint record_documents (n : nat) (events : list DocumentEvent) (db : database) :
    database :=
  match events with
  | [] => db
  | e :: rest =>
      record_documents (S n) rest
        (record_document_event hex_uuid (N.of_nat n) (Z.of_nat n) e db).2
  end.

Fixpoint record_blockchains (n : nat) (events : list BlockchainEvent) (db : database) :
    database :=
  match events with
  | [] => db
  | e :: rest =>
      record_blockchains (S n) rest
        (record_blockchain_event hex_uuid (N.of_nat n) (Z.of_nat n) e db).2
  end.

(** One user, three document events: a success, an error, one still
    pending. *)
Definition three_statuses : database :=
  record_documents 0
    [ document_event U1 "generation" None (Some (5 # 2)) "success";
      document_event U1 "generation" None None "error";
      document_event U1 "status_change" None None "pending" ]
    started.

(** One user, two blockchain events: one took 4 seconds, the other has no
    duration. *)
Definition one_timed_one_untimed : database :=
  record_blockchains 0
    [ blockchain_event U1 (Some 4) "success";
      blockchain_event U1 None "success" ]
    started.


(** The spec's reading of total_users: the distinct user ids that occur in
    any of the three tables. *)
Definition distinct_users_any_table (db : database) : Z :=
  sql_count_distinct
    ((de_user_id <$> rows_of (document_events db)) ++
     (be_user_id <$> rows_of (blockchain_events db)) ++
     (us_user_id <$> rows_of (user_sessions db))).

(** Three users, each with one blockchain event and no document event. *)
Definition blockchain_only_users : database :=
  record_blockchains 0
    [ blockchain_event U1 (Some 1) "success";
      blockchain_event U2 (Some 1) "success";
      blockchain_event U3 (Some 1) "success" ]
    started.

(** Three users with five document events between them, and a fourth user
    seen only in blockchain_events. *)
Definition three_document_users : database :=
  record_blockchains 5
    [ blockchain_event "00000000-0000-0000-0000-000000000004" None "success" ]
    (record_documents 0
       [ document_event U1 "generation" None (Some 1) "success";
         document_event U2 "generation" None None "error";
         document_event U1 "status_change" None None "success";
         document_event U3 "generation" None (Some 2) "success";
         document_event U2 "generation" None (Some 3) "success" ]
       started).

(** A store with one successful generation event and one successful
    blockchain event, each lasting an eighth of a second. *)
Definition eighth_of_a_second : database :=
  record_blockchains 1
    [ blockchain_event U1 (Some (1 # 8)) "success" ]
    (record_documents 0
       [ document_event U1 "generation" None (Some (1 # 8)) "success" ]
       started).

(** A number with at most two decimal places. *)
Definition two_decimals (q : Q) : Prop := exists z : Z, q == z # 100.

(** Request bodies for the insert handlers. *)
Definition empty_status_body : DocumentPayload :=
  {| dp_user_id := Some U1; dp_document_id := None;
     dp_event_type := Some "generation"%string; dp_document_type := None;
     dp_ai_service := None; dp_duration_seconds := None;
     dp_status := Some ""%string; dp_metadata := None |}.

Definition no_status_body : DocumentPayload :=
  {| dp_user_id := Some U1; dp_document_id := None;
     dp_event_type := Some "generation"%string; dp_document_type := None;
     dp_ai_service := None; dp_duration_seconds := None;
     dp_status := None; dp_metadata := None |}.

Definition no_network_body : BlockchainPayload :=
  {| bp_user_id := Some U1; bp_document_id := None; bp_transaction_id := None;
     bp_network := None; bp_transaction_type := Some "anchor"%string;
     bp_duration_seconds := None; bp_status := Some "success"%string;
     bp_gas_used := None; bp_metadata := None |}.

Definition doc_missing_required (body : DocumentPayload) : Prop :=
  dp_user_id body = None \/ dp_event_type body = None \/ dp_status body = None.

Definition bc_missing_required (body : BlockchainPayload) : Prop :=
  bp_user_id body = None \/ bp_network body = None \/
  bp_transaction_type body = None \/ bp_status body = None.

(** What the text of the document-type query fixes about its result: the
    groups of the user, in some order in which counts never increase. *)
Definition doc_types_answer (u : uuid) (rows : list DocumentRow)
    (ans : list (string * Z)) : Prop :=
  ans ≡ₚ doc_type_groups u rows /\
  StronglySorted (fun a b => (b.2 <= a.2)%Z) ans.

(** The spec's order: count descending, equal counts by document_type
    ascending. *)
Definition count_desc_then_type_asc (a b : string * Z) : Prop :=
  (b.2 < a.2)%Z \/ (b.2 = a.2 /\ String.compare a.1 b.1 = Lt).

Definition tie_break_ascending (ans : list (string * Z)) : Prop :=
  StronglySorted count_desc_then_type_asc ans.

(** One user, one invoice event followed by one contract event. *)
Definition tied_types : database :=
  record_documents 0
    [ document_event U1 "generation" (Some "invoice"%string) None "success";
      document_event U1 "generation" (Some "contract"%string) None "success" ]
    started.

(** One user, three contract events and one invoice event. *)
Definition contracts_and_invoice : database :=
  record_documents 0
    [ document_event U1 "generation" (Some "contract"%string) None "success";
      document_event U1 "generation" (Some "invoice"%string) None "success";
      document_event U1 "generation" (Some "contract"%string) None "success";
      document_event U1 "generation" (Some "contract"%string) None "success" ]
    started.

(** The spec's window: the [n] days that end at the time of the query. *)
Definition within_trailing_days (n : Z) (now t : timestamp) : Prop :=
  (now - interval_days n <= t <= now)%Z.

Definition usec_per_hour : Z := 3600000000.

(** Hour [h] of day number [d]. *)
Definition at_day (d h : Z) : timestamp :=
  (d * usec_per_day + h * usec_per_hour)%Z.

(** One document event, recorded on day 70 at 06:00. *)
Definition stale_store : database :=
  (record_document_event hex_uuid 1%N (at_day 70 6)
     (document_event U1 "generation" None None "success") started).2.

(** Two document events of different types at 08:00 on each of the given
    days. *)
Fixpoint record_daily (days : list Z) (db : database) : database :=
  match days with
  | [] => db
  | d :: rest =>
      let db1 :=
        (record_document_event hex_uuid (Z.to_N (2 * d)) (at_day d 8)
           (document_event U1 "generation" None None "success") db).2 in
      let db2 :=
        (record_document_event hex_uuid (Z.to_N (2 * d + 1)) (at_day d 8)
           (document_event U1 "status_change" None None "success") db1).2 in
      record_daily rest db2
  end.

(** One document event on day 71 at 12:00, then two a day from day 86 to
    day 100. *)
Definition crowded_store : database :=
  record_daily ((fun i => (86 + Z.of_nat i)%Z) <$> seq 0 15)
    (record_document_event hex_uuid 1%N (at_day 71 12)
       (document_event U1 "generation" None None "success") started).2.

(** ** Further vocabulary for the handlers *)

(** The startup hook: the schema is initialised before any request. *)
Definition startup_event (db : database) : database := init_database db.

(** The row that an acknowledged document insert stores. *)
Definition stored_document_row (fresh : uuid) (now : timestamp) (u : uuid)
    (d : option uuid) (event : DocumentEvent) : DocumentRow :=
  {| de_id := fresh; de_user_id := u; de_document_id := d;
     de_event_type := event_type event;
     de_document_type := document_type event;
     de_ai_service := ai_service event;
     de_duration_seconds := duration_seconds event;
     de_status := status event;
     de_metadata := metadata event;
     de_created_at := now |}.

(** The row that an acknowledged blockchain insert stores. *)
Definition stored_blockchain_row (fresh : uuid) (now : timestamp) (u : uuid)
    (d : option uuid) (g : option Z) (event : BlockchainEvent) : BlockchainRow :=
  {| be_id := fresh; be_user_id := u; be_document_id := d;
     be_transaction_id := b_transaction_id event;
     be_network := b_network event;
     be_transaction_type := b_transaction_type event;
     be_duration_seconds := b_duration_seconds event;
     be_status := b_status event;
     be_gas_used := g;
     be_metadata := b_metadata event;
     be_created_at := now |}.

(** A table with one more row at its end. *)
Definition append_row {A : Type} (t : table A) (row : A) : table A :=
  {| tbl_columns := tbl_columns t; tbl_rows := tbl_rows t ++ [row] |}.

Definition with_document_events (db : database) (t : table DocumentRow) : database :=
  {| document_events := Some t;
     blockchain_events := blockchain_events db;
     user_sessions := user_sessions db |}.

Definition with_blockchain_events (db : database) (t : table BlockchainRow) : database :=
  {| document_events := document_events db;
     blockchain_events := Some t;
     user_sessions := user_sessions db |}.

(** Bodies for the blockchain insert: a gas figure one past the largest
    BIGINT, and the largest BIGINT itself. *)
Definition gas_body (gas : Z) : BlockchainPayload :=
  {| bp_user_id := Some U1; bp_document_id := None; bp_transaction_id := None;
     bp_network := Some "hedera"%string; bp_transaction_type := Some "anchor"%string;
     bp_duration_seconds := None; bp_status := Some "success"%string;
     bp_gas_used := Some gas; bp_metadata := None |}.

(** 1 when [P] holds, 0 when it does not. *)
Definition indicator (P : Prop) `{!Decision P} : Z := if decide P then 1%Z else 0%Z.

(** The sum of a list of integers. *)
Definition Zsum (zs : list Z) : Z := foldr Z.add 0%Z zs.

(** The body that get_system_analytics assembles from the two tables. *)
Definition system_body (docs : list DocumentRow) (chain : list BlockchainRow) :
    SystemAnalytics :=
  let ss := system_stats docs chain in
  {| total_users := or_0 (ss_total_users ss);
     total_documents := or_0 (ss_total_documents ss);
     sys_total_transactions := or_0 (ss_total_transactions ss);
     avg_document_generation_time := or_0Q (ss_avg_doc_time ss);
     avg_blockchain_transaction_time := or_0Q (ss_avg_blockchain_time ss) |}.

(** Five document events of three users, none of them a blockchain user. *)
Definition five_documents : database :=
  record_documents 0
    [ document_event U1 "generation" None (Some 1) "success";
      document_event U2 "generation" None None "error";
      document_event U1 "status_change" None None "success";
      document_event U3 "generation" None (Some 2) "success";
      document_event U2 "generation" None (Some 3) "success" ]
    started.

(** The event tables that exist have the columns that init_database
    declares for them. *)
Definition declared_event_columns (db : database) : Prop :=
  (forall t, document_events db = Some t ->
             tbl_columns t = document_events_columns) /\
  (forall t, blockchain_events db = Some t ->
             tbl_columns t = blockchain_events_columns).

(** * Properties *)

(** ** Generic facts about the aggregates *)

Lemma sql_count_nonneg {A : Type} (rows : list A) : (0 <= sql_count rows)%Z.
Proof. unfold sql_count. lia. Qed.

Lemma filter_none {A : Type} (P : A -> Prop) `{!forall x, Decision (P x)} (l : list A) :
  (forall x, x ∈ l -> ~ P x) -> filter P l = [].
Proof.
  induction l as [|x l IH]; intros Hall; [done|].
  rewrite filter_cons_False by (apply Hall; left).
  apply IH. intros y Hy. apply Hall. by right.
Qed.

(** Three-way split of a count: the rows in [P], the rows in [R], the rest. *)
Lemma sql_count_split3 {A : Type} (P R : A -> Prop)
    `{!forall x, Decision (P x)} `{!forall x, Decision (R x)} (l : list A) :
  (forall x, P x -> R x -> False) ->
  sql_count l =
    (sql_count_when P l + sql_count_when R l +
     sql_count_when (fun x => ~ P x /\ ~ R x) l)%Z.
Proof.
  intros Hdisj. unfold sql_count_when, sql_count.
  induction l as [|x l IH]; [done|].
  rewrite !filter_cons.
  destruct (decide (P x)) as [HP|HP], (decide (R x)) as [HR|HR];
    try (exfalso; by eapply Hdisj);
    repeat case_decide; simpl in *; try tauto; lia.
Qed.

(** ** Reading the handlers *)

Lemma get_user_analytics_Ok cast now user db body :
  get_user_analytics cast now user db = Ok body <->
  exists td tc u,
    document_events db = Some td /\ blockchain_events db = Some tc /\
    cast user = Some u /\
    body = user_body user now u (tbl_rows td) (tbl_rows tc).
Proof.
  unfold get_user_analytics, scan, mbind, response_bind, storage_error.
  destruct (document_events db) as [td|], (blockchain_events db) as [tc|],
    (cast user) as [u|]; split;
    try (intros H; discriminate H);
    try (intros (? & ? & ? & ? & ? & ? & ?); discriminate).
  - intros H. inversion H. by exists td, tc, u.
  - intros (td' & tc' & u' & Htd & Htc & Hu & ->). congruence.
Qed.


Lemma get_system_analytics_Ok db body :
  get_system_analytics db = Ok body ->
  exists td tc,
    document_events db = Some td /\ blockchain_events db = Some tc /\
    total_users body = sql_count_distinct (de_user_id <$> tbl_rows td).
Proof.
  unfold get_system_analytics, scan, mbind, response_bind, storage_error.
  destruct (document_events db) as [td|], (blockchain_events db) as [tc|];
    intros H; try discriminate H.
  inversion H. by exists td, tc.
Qed.

(** ** Schema initialisation *)

Lemma init_database_initialised db : initialised (init_database db).
Proof.
  unfold initialised, init_database, create_table_if_not_exists; simpl.
  destruct (document_events db), (blockchain_events db), (user_sessions db);
    repeat split; eauto.
Qed.

Lemma init_database_fixed db : initialised db -> init_database db = db.
Proof.
  destruct db as [d b s]. intros ([? Hd] & [? Hb] & [? Hs]); simpl in *; subst.
  reflexivity.
Qed.

Lemma init_database_iter (n : nat) db :
  Nat.iter n init_database (init_database db) = init_database db.
Proof.
  induction n as [|n IH]; simpl; [done|].
  rewrite IH. apply init_database_fixed, init_database_initialised.
Qed.

Lemma init_database_iter_fixed (n : nat) db :
  initialised db -> Nat.iter n init_database db = db.
Proof.
  intros Hinit. rewrite <- (init_database_fixed db Hinit) at 1.
  rewrite init_database_iter. by apply init_database_fixed.
Qed.

(** C9. Schema initialisation is idempotent.  After [init_database] has
    run the three tables exist, and running it any number of further times,
    also after rows were inserted, returns the very same database: the set
    of tables, their columns and their row counts (indeed their rows) stay
    as they were.  Tables that existed before the first run keep their
    columns and rows through it. *)
Theorem init_database_idempotent (n : nat) (db : database) :
  initialised (init_database db) /\
  Nat.iter n init_database (init_database db) = init_database db /\
  (initialised db ->
     Nat.iter n init_database db = db /\
     database_shape (Nat.iter n init_database db) = database_shape db) /\
  (forall t, document_events db = Some t ->
             document_events (init_database db) = Some t) /\
  (forall t, blockchain_events db = Some t ->
             blockchain_events (init_database db) = Some t) /\
  (forall t, user_sessions db = Some t ->
             user_sessions (init_database db) = Some t).
Proof.
  split; [apply init_database_initialised|].
  split; [apply init_database_iter|].
  split.
  { intros Hinit. by rewrite init_database_iter_fixed. }
  unfold init_database, create_table_if_not_exists; simpl.
  repeat split; intros t ->; reflexivity.
Qed.

Lemma init_database_idempotent_witness :
  initialised three_statuses /\
  Nat.iter 3 init_database three_statuses = three_statuses /\
  database_shape (Nat.iter 3 init_database three_statuses) =
    (Some (document_events_columns, 3%nat),
     Some (blockchain_events_columns, 0%nat),
     Some (user_sessions_columns, 0%nat)).
Proof.
  assert (Hinit : initialised three_statuses).
  { vm_compute. repeat split; eauto. }
  destruct (init_database_idempotent 3 three_statuses) as (_ & _ & H & _).
  destruct (H Hinit) as [Hsame Hshape].
  split; [exact Hinit|]. split; [exact Hsame|].
  rewrite Hshape. reflexivity.
Defined.

(** ** The per-user summaries *)

Lemma since_days_of_user n now u rows :
  since_days n now u rows =
    filter (fun r => (current_date now - interval_days n <= de_created_at r)%Z)
           (of_user u rows).
Proof.
  unfold since_days, of_user. rewrite list_filter_filter.
  apply list_filter_iff. tauto.
Qed.

Lemma of_user_none u rows :
  (forall r, r ∈ rows -> de_user_id r <> u) -> of_user u rows = [].
Proof. intros H. by apply filter_none. Qed.


(** C10. In the documents summary [successful + failed <= total]: [total]
    counts every document event of the user, [successful] those whose status
    is 'success', [failed] those whose status is 'error', and the events with
    any other status make up exactly the difference. *)
Theorem successful_plus_failed_le_total cast now user db body :
  get_user_analytics cast now user db = Ok body ->
  exists u, cast user = Some u /\
    (let mine := of_user u (rows_of (document_events db)) in
     let d := documents body in
     total d = sql_count mine /\
     successful d = sql_count_when (fun r => de_status r = "success"%string) mine /\
     failed d = sql_count_when (fun r => de_status r = "error"%string) mine /\
     total d =
       (successful d + failed d +
        sql_count_when (fun r => de_status r <> "success"%string /\
                                 de_status r <> "error"%string) mine)%Z /\
     (successful d + failed d <= total d)%Z).
Proof.
  intros (td & tc & u & Htd & Htc & Hu & ->)%get_user_analytics_Ok.
  exists u. split; [done|]. rewrite Htd. simpl.
  set (mine := of_user u (tbl_rows td)).
  pose proof (sql_count_split3 (fun r => de_status r = "success"%string)
                (fun r => de_status r = "error"%string) mine) as Hsplit.
  assert (Hsum : sql_count mine =
    (sql_count_when (fun r => de_status r = "success"%string) mine +
     sql_count_when (fun r => de_status r = "error"%string) mine +
     sql_count_when (fun r => de_status r <> "success"%string /\
                              de_status r <> "error"%string) mine)%Z).
  { apply Hsplit. intros r H1 H2. rewrite H1 in H2. discriminate H2. }
  repeat split; try done.
  pose proof (sql_count_nonneg
    (filter (fun r => de_status r <> "success"%string /\
                      de_status r <> "error"%string) mine)) as Hnn.
  unfold sql_count_when in *. lia.
Qed.

Lemma successful_plus_failed_le_total_witness :
  exists body,
    get_user_analytics hex_uuid 10 U1 three_statuses = Ok body /\
    (successful (documents body) + failed (documents body)
       <= total (documents body))%Z.
Proof.
  pose proof (successful_plus_failed_le_total hex_uuid 10 U1 three_statuses) as T.
  destruct (get_user_analytics hex_uuid 10 U1 three_statuses) as [body|c] eqn:E;
    [|vm_compute in E; discriminate E].
  exists body. split; [reflexivity|].
  destruct (T body eq_refl) as (u & _ & H). apply H.
Defined.




(** ** Rounding and exact rationals *)

Lemma round_half_even_comp (q q' : Q) :
  q == q' -> round_half_even q = round_half_even q'.
Proof.
  intros H. unfold round_half_even.
  assert (Hf : Qfloor q = Qfloor q') by (by apply Qfloor_comp).
  assert (Hc : Qcompare (q - inject_Z (Qfloor q')) (1 # 2) =
               Qcompare (q' - inject_Z (Qfloor q')) (1 # 2)).
  { apply Qcompare_comp; [|reflexivity]. by apply Qminus_comp. }
  cbv zeta. by rewrite Hf, Hc.
Qed.

Lemma round_2_comp (q q' : Q) : q == q' -> round_2 q = round_2 q'.
Proof.
  intros H. unfold round_2. f_equal. apply round_half_even_comp. by rewrite H.
Qed.

Lemma sql_avg_singleton (d : Q) : sql_avg [Some d] = Some (Qsum [d] / 1).
Proof. reflexivity. Qed.

Lemma Qsum_singleton_over_1 (d : Q) : Qsum [d] / 1 == d.
Proof. unfold Qsum; simpl. field. Qed.

(** ** Insert, then read *)

Lemma of_user_snoc_fresh u rows row :
  (forall r, r ∈ rows -> de_user_id r <> u) -> de_user_id row = u ->
  of_user u (rows ++ [row]) = [row].
Proof.
  intros Hnone Hrow. unfold of_user. rewrite filter_app.
  fold (of_user u rows). rewrite (of_user_none _ _ Hnone). simpl.
  by rewrite filter_cons_True.
Qed.

(** C2. Insert-then-read: on a started store without document events of
    user U1, recording one document event of U1 with status "success", event
    type "generation" and a duration of 2.5 seconds is acknowledged, and the
    user summary read afterwards has documents total 1, successful 1,
    failed 0, avg_generation_time 2.5 and status_changes 0. *)
Theorem insert_then_read cast fresh now later user u event db :
  initialised db ->
  cast user = Some u ->
  (forall r, r ∈ rows_of (document_events db) -> de_user_id r <> u) ->
  user_id event = user ->
  is_Some (cast_optional_uuid cast (document_id event)) ->
  status event = "success"%string ->
  event_type event = "generation"%string ->
  (exists d, duration_seconds event = Some d /\ d == 2.5) ->
  exists db' body,
    record_document_event cast fresh now event db = (Ok recorded, db') /\
    get_user_analytics cast later user db' = Ok body /\
    total (documents body) = 1%Z /\
    successful (documents body) = 1%Z /\
    failed (documents body) = 0%Z /\
    avg_generation_time (documents body) == 2.5 /\
    status_changes (documents body) = 0%Z.
Proof.
  intros ([td Htd] & [tc Htc] & Hsess) Hu Hnone Huser [did Hdid] Hst Hty
    (d & Hdur & Hd).
  unfold record_document_event. rewrite Htd, Huser, Hu, Hdid.
  eexists _, _. split; [reflexivity|].
  split.
  { apply get_user_analytics_Ok. eexists _, tc, u. simpl. by rewrite Htc. }
  rewrite Htd in Hnone. simpl in Hnone.
  unfold user_body, doc_stats; simpl.
  rewrite (of_user_snoc_fresh u (tbl_rows td)); [|exact Hnone|reflexivity].
  unfold sql_count_when. rewrite !filter_cons, !filter_nil. simpl.
  rewrite Hst, Hty, Hdur.
  repeat split; try reflexivity.
  rewrite (round_2_comp _ 2.5); [reflexivity|].
  rewrite <- Hd. apply (Qsum_singleton_over_1 d).
Qed.

Lemma insert_then_read_witness :
  exists db' body,
    record_document_event hex_uuid 9%N 100
      (document_event U1 "generation" None (Some 2.5) "success") started
      = (Ok recorded, db') /\
    get_user_analytics hex_uuid 200 U1 db' = Ok body /\
    total (documents body) = 1%Z /\
    avg_generation_time (documents body) == 2.5.
Proof.
  destruct (insert_then_read hex_uuid 9%N 100%Z 200%Z U1 1%N
              (document_event U1 "generation" None (Some 2.5) "success") started)
    as (db' & body & Hins & Hget & Ht & _ & _ & Havg & _).
  - vm_compute. repeat split; eauto.
  - reflexivity.
  - apply Forall_forall. vm_compute. constructor.
  - reflexivity.
  - vm_compute. eauto.
  - reflexivity.
  - reflexivity.
  - exists 2.5. split; reflexivity.
  - exists db', body. auto.
Defined.

(** ** Averages leave out the rows without a duration *)

Lemma omap_id_fmap {A B : Type} (f : A -> option B) (l : list A) :
  omap id (f <$> l) = omap f l.
Proof.
  induction l as [|x l IH]; [done|]. csimpl. rewrite IH. by destruct (f x).
Qed.


Lemma sql_avg_skip_null (cells : list (option Q)) :
  sql_avg (None :: cells) = sql_avg cells.
Proof. reflexivity. Qed.



(** ** System-wide summary *)

Lemma sql_count_distinct_NoDup {K : Type} `{!EqDecision K} (cells us : list K) :
  NoDup us -> (forall k, k ∈ us <-> k ∈ cells) ->
  sql_count_distinct cells = Z.of_nat (length us).
Proof.
  intros Hnd Hiff. unfold sql_count_distinct, sql_count. f_equal.
  apply Permutation_length, NoDup_Permutation; [apply NoDup_remove_dups|done|].
  intros k. rewrite elem_of_remove_dups. symmetry. apply Hiff.
Qed.

(** C1, as the code has it. total_users is the number of distinct user_id
    values of document_events alone: when exactly the users [us] (three of
    them, say) have document events, it is [length us] whatever the number of
    events and whatever the other tables hold. *)
Theorem total_users_counts_document_users db body (us : list N) :
  get_system_analytics db = Ok body ->
  NoDup us ->
  (forall u, u ∈ us <->
             exists r, r ∈ rows_of (document_events db) /\ de_user_id r = u) ->
  total_users body = Z.of_nat (length us).
Proof.
  intros (td & tc & Htd & Htc & ->)%get_system_analytics_Ok Hnd Hiff.
  apply sql_count_distinct_NoDup; [done|].
  intros u. rewrite Hiff, Htd. simpl. rewrite list_elem_of_fmap.
  split; intros (r & H1 & H2); exists r; by split.
Qed.

Lemma total_users_counts_document_users_witness :
  exists body,
    get_system_analytics three_document_users = Ok body /\
    total_users body = 3%Z.
Proof.
  pose proof (total_users_counts_document_users three_document_users) as T.
  destruct (get_system_analytics three_document_users) as [body|c] eqn:E;
    [|vm_compute in E; discriminate E].
  exists body. split; [reflexivity|].
  apply (T body [1%N; 2%N; 3%N]); [reflexivity| |].
  - repeat constructor; rewrite ?list_elem_of_In; simpl; intuition discriminate.
  - intros u.
    transitivity (u ∈ de_user_id <$> rows_of (document_events three_document_users)).
    + let users := eval vm_compute in
        (de_user_id <$> rows_of (document_events three_document_users)) in
      change (de_user_id <$> rows_of (document_events three_document_users))
        with users.
      rewrite !list_elem_of_In. simpl. tauto.
    + rewrite list_elem_of_fmap.
      split; intros (r & H1 & H2); exists r; by split.
Defined.

(** C1, counterexample.  Three distinct users have events, all of them in
    blockchain_events: the any-table reading counts 3, the service answers
    total_users = 0. *)
Lemma total_users_ignores_blockchain_users :
  distinct_users_any_table blockchain_only_users = 3%Z /\
  exists body,
    get_system_analytics blockchain_only_users = Ok body /\
    total_users body = 0%Z /\
    total_users body <> distinct_users_any_table blockchain_only_users.
Proof.
  split; [reflexivity|].
  eexists. split; [reflexivity|]. split; [reflexivity|]. discriminate.
Qed.

(** ** Rounding at the response boundary *)

Lemma round_2_two_decimals (q : Q) : two_decimals (round_2 q).
Proof. exists (round_half_even (q * 100)). reflexivity. Qed.

(** Every average of the per-user body went through [round_2]. *)
Lemma user_averages_two_decimals cast now user db body :
  get_user_analytics cast now user db = Ok body ->
  two_decimals (avg_generation_time (documents body)) /\
  two_decimals (avg_transaction_time (blockchain body)) /\
  Forall (fun row => two_decimals (avg_duration row)) (ua_performance_trend body).
Proof.
  intros (td & tc & u & _ & _ & _ & ->)%get_user_analytics_Ok. simpl.
  repeat split; try apply round_2_two_decimals.
  apply Forall_fmap, Forall_forall. intros row _. apply round_2_two_decimals.
Qed.

Lemma eighth_not_two_decimals : ~ two_decimals (1 # 8).
Proof. intros [z Hz]. unfold Qeq in Hz. simpl in Hz. lia. Qed.

(** C4, at the failing input.  With one successful generation event and one
    successful blockchain event of 0.125 s each, GET /analytics/system
    answers 0.125 for both averages, a number with three decimals, while the
    per-user body for the same store carries 0.12. *)
Lemma system_averages_not_rounded :
  exists sys usr,
    get_system_analytics eighth_of_a_second = Ok sys /\
    get_user_analytics hex_uuid 10 U1 eighth_of_a_second = Ok usr /\
    avg_document_generation_time sys == 1 # 8 /\
    avg_blockchain_transaction_time sys == 1 # 8 /\
    ~ two_decimals (avg_document_generation_time sys) /\
    ~ two_decimals (avg_blockchain_transaction_time sys) /\
    avg_generation_time (documents usr) == 12 # 100 /\
    avg_transaction_time (blockchain usr) == 12 # 100.
Proof.
  eexists _, _. split; [reflexivity|]. split; [reflexivity|].
  repeat split; try reflexivity; apply eighth_not_two_decimals.
Qed.

(** ** Validation of request bodies *)

Lemma validate_DocumentEvent_None body :
  validate_DocumentEvent body = None <-> doc_missing_required body.
Proof.
  unfold validate_DocumentEvent, doc_missing_required.
  destruct (dp_user_id body), (dp_event_type body), (dp_status body); simpl;
    split; intros H; try discriminate H; auto;
    destruct H as [H|[H|H]]; discriminate H.
Qed.

Lemma validate_BlockchainEvent_None body :
  validate_BlockchainEvent body = None <-> bc_missing_required body.
Proof.
  unfold validate_BlockchainEvent, bc_missing_required.
  destruct (bp_user_id body), (bp_network body), (bp_transaction_type body),
    (bp_status body); simpl;
    split; intros H; try discriminate H; auto;
    destruct H as [H|[H|[H|H]]]; discriminate H.
Qed.

(** C8, as the code has it.  Both inserts require their required fields to
    be present: a body that lacks one is answered with a validation error
    and the database is left as it was.  Presence is all that is asked: a
    body whose required fields are all there passes validation and is handed
    to the insert, whatever its strings contain. *)
Theorem missing_required_field_rejected cast fresh now db dbody bbody :
  (doc_missing_required dbody ->
     post_events_document cast fresh now dbody db = (validation_error, db)) /\
  (bc_missing_required bbody ->
     post_events_blockchain cast fresh now bbody db = (validation_error, db)) /\
  (~ doc_missing_required dbody ->
     exists event,
       validate_DocumentEvent dbody = Some event /\
       dp_user_id dbody = Some (user_id event) /\
       dp_event_type dbody = Some (event_type event) /\
       dp_status dbody = Some (status event) /\
       post_events_document cast fresh now dbody db =
         record_document_event cast fresh now event db) /\
  (~ bc_missing_required bbody ->
     exists event,
       validate_BlockchainEvent bbody = Some event /\
       bp_user_id bbody = Some (b_user_id event) /\
       bp_network bbody = Some (b_network event) /\
       bp_transaction_type bbody = Some (b_transaction_type event) /\
       bp_status bbody = Some (b_status event) /\
       post_events_blockchain cast fresh now bbody db =
         record_blockchain_event cast fresh now event db).
Proof.
  repeat split.
  - intros H%validate_DocumentEvent_None. unfold post_events_document. by rewrite H.
  - intros H%validate_BlockchainEvent_None. unfold post_events_blockchain. by rewrite H.
  - intros H. unfold post_events_document, doc_missing_required, validate_DocumentEvent in *.
    destruct (dp_user_id dbody), (dp_event_type dbody), (dp_status dbody);
      simpl; try tauto.
    eexists. repeat split.
  - intros H.
    unfold post_events_blockchain, bc_missing_required, validate_BlockchainEvent in *.
    destruct (bp_user_id bbody), (bp_network bbody), (bp_transaction_type bbody),
      (bp_status bbody); simpl; try tauto.
    eexists. repeat split.
Qed.

Lemma missing_required_field_rejected_witness :
  post_events_document hex_uuid 9%N 100 no_status_body started
    = (validation_error, started) /\
  post_events_blockchain hex_uuid 9%N 100 no_network_body started
    = (validation_error, started).
Proof.
  destruct (missing_required_field_rejected hex_uuid 9%N 100%Z started
              no_status_body no_network_body) as (Hd & Hb & _).
  split.
  - apply Hd. right. right. reflexivity.
  - apply Hb. right. left. reflexivity.
Defined.

(** C8, counterexample.  A document event whose required [status] is the
    empty string is acknowledged and its row is stored. *)
Lemma empty_required_field_is_stored :
  exists db' row,
    post_events_document hex_uuid 9%N 100 empty_status_body started
      = (Ok recorded, db') /\
    rows_of (document_events started) = [] /\
    rows_of (document_events db') = [row] /\
    de_status row = ""%string /\
    db' <> started.
Proof.
  eexists _, _. split; [reflexivity|].
  repeat split. discriminate.
Qed.

(** ** ORDER BY and GROUP BY *)

Section Ordering.

Context {A : Type} (le : A -> A -> bool).

Lemma insert_by_Permutation x l : insert_by le x l ≡ₚ x :: l.
Proof.
  induction l as [|y l IH]; simpl; [done|].
  destruct (le x y); [done|]. rewrite IH. apply Permutation_swap.
Qed.

Lemma order_by_Permutation l : order_by le l ≡ₚ l.
Proof.
  induction l as [|x l IH]; simpl; [done|].
  rewrite insert_by_Permutation. by rewrite IH.
Qed.

Hypothesis le_total : forall a b, le a b = true \/ le b a = true.
Hypothesis le_trans : forall a b c, le a b = true -> le b c = true -> le a c = true.

Lemma insert_by_sorted x l :
  StronglySorted (fun a b => le a b = true) l ->
  StronglySorted (fun a b => le a b = true) (insert_by le x l).
Proof.
  induction 1 as [|y l Hsorted IH Hy]; simpl.
  - repeat constructor.
  - destruct (le x y) eqn:Hxy.
    + constructor; [by constructor|].
      constructor; [done|].
      eapply Forall_impl; [exact Hy|]. intros z Hz. by eapply le_trans.
    + constructor; [exact IH|].
      rewrite insert_by_Permutation. constructor; [|done].
      destruct (le_total x y) as [Hc|Hc]; [congruence|done].
Qed.

Lemma order_by_sorted l :
  StronglySorted (fun a b => le a b = true) (order_by le l).
Proof.
  induction l as [|x l IH]; simpl; [constructor|]. by apply insert_by_sorted.
Qed.

End Ordering.

Section Grouping.

Context {A K : Type} `{!EqDecision K} (key : A -> K).

Lemma group_by_keys rows : (group_by key rows).*1 = remove_dups (key <$> rows).
Proof.
  unfold group_by. rewrite <- list_fmap_compose.
  rewrite <- (list_fmap_id (remove_dups (key <$> rows))) at 2.
  by apply list_fmap_ext.
Qed.

Lemma NoDup_group_by_keys rows : NoDup (group_by key rows).*1.
Proof. rewrite group_by_keys. apply NoDup_remove_dups. Qed.

Lemma elem_of_group_by rows k g :
  (k, g) ∈ group_by key rows <->
  k ∈ key <$> rows /\ g = filter (fun r => key r = k) rows.
Proof.
  unfold group_by. rewrite list_elem_of_fmap. split.
  - intros (k' & Heq & Hk'). inversion Heq; subst.
    by rewrite elem_of_remove_dups in Hk'.
  - intros [Hk ->]. exists k. by rewrite elem_of_remove_dups.
Qed.

(** Every row sits in the group of its key: no group is empty. *)
Lemma group_by_row rows r :
  r ∈ rows ->
  (key r, filter (fun x => key x = key r) rows) ∈ group_by key rows /\
  r ∈ filter (fun x => key x = key r) rows.
Proof.
  intros Hr. split.
  - apply elem_of_group_by. split; [|done].
    apply list_elem_of_fmap. by exists r.
  - by apply list_elem_of_filter.
Qed.

End Grouping.

Lemma sql_count_pos_elem {A : Type} (l : list A) x : x ∈ l -> (0 < sql_count l)%Z.
Proof. intros Hx. destruct l; [by apply elem_of_nil in Hx|]. unfold sql_count; simpl; lia. Qed.

Lemma sql_count_pos_inv {A : Type} (l : list A) :
  (0 < sql_count l)%Z -> exists x, x ∈ l.
Proof.
  destruct l as [|x l]; unfold sql_count; simpl; [lia|]. intros _. exists x. left.
Qed.

Lemma filter_omap_eq {A B : Type} `{!EqDecision B} (f : A -> option B) (b : B)
    (l : list A) :
  filter (fun y => y = b) (omap f l) =
    omap f (filter (fun x => f x = Some b) l).
Proof.
  induction l as [|x l IH]; [done|]. csimpl. rewrite filter_cons.
  destruct (f x) as [y|] eqn:Hfx.
  - rewrite filter_cons. destruct (decide (y = b)) as [->|Hne].
    + rewrite decide_True by done. csimpl. by rewrite Hfx, IH.
    + rewrite decide_False by congruence. done.
  - rewrite decide_False by congruence. done.
Qed.

Lemma length_omap_all_some {A B : Type} (f : A -> option B) (l : list A) :
  (forall x, x ∈ l -> is_Some (f x)) -> length (omap f l) = length l.
Proof.
  induction l as [|x l IH]; intros Hall; [done|]. csimpl.
  destruct (Hall x) as [y Hy]; [left|]. rewrite Hy. simpl. f_equal.
  apply IH. intros z Hz. apply Hall. by right.
Qed.

(** ** Document type distribution *)

Lemma doc_type_groups_keys u rows :
  (doc_type_groups u rows).*1 =
    remove_dups (omap de_document_type (of_user u rows)).
Proof.
  unfold doc_type_groups. rewrite <- list_fmap_compose.
  transitivity (group_by id (omap de_document_type (of_user u rows))).*1.
  - by apply list_fmap_ext.
  - by rewrite group_by_keys, list_fmap_id.
Qed.

Lemma typed_count u rows ty :
  sql_count (filter (fun t => id t = ty) (omap de_document_type (of_user u rows))) =
  sql_count (filter (fun r => de_document_type r = Some ty) (of_user u rows)).
Proof.
  unfold sql_count. f_equal.
  change (fun t : string => id t = ty) with (fun t : string => t = ty).
  rewrite filter_omap_eq. apply length_omap_all_some.
  intros r [Hr _]%list_elem_of_filter. by rewrite Hr.
Qed.

Lemma elem_of_doc_type_groups u rows ty c :
  (ty, c) ∈ doc_type_groups u rows <->
  c = sql_count (filter (fun r => de_document_type r = Some ty) (of_user u rows)) /\
  (0 < c)%Z.
Proof.
  unfold doc_type_groups. rewrite list_elem_of_fmap. split.
  - intros ([k g] & Heq & [Hk ->]%elem_of_group_by). simpl in Heq.
    inversion Heq; subst. rewrite list_fmap_id in Hk.
    split; [apply typed_count|].
    apply (sql_count_pos_elem _ k). by apply list_elem_of_filter.
  - intros [-> Hpos]. apply sql_count_pos_inv in Hpos as [r Hr].
    apply list_elem_of_filter in Hr as [Hty Hr].
    exists (ty, filter (fun t => id t = ty) (omap de_document_type (of_user u rows))).
    simpl. split; [by rewrite typed_count|].
    apply elem_of_group_by. split; [|done].
    rewrite list_fmap_id. apply list_elem_of_omap. by exists r.
Qed.

Lemma StronglySorted_weaken {A : Type} (R S : A -> A -> Prop) (l : list A) :
  (forall a b, R a b -> S a b) -> StronglySorted R l -> StronglySorted S l.
Proof.
  intros HRS. induction 1 as [|x l Hl IH Hx]; constructor; [done|].
  eapply Forall_impl; [exact Hx|]. intros y. apply HRS.
Qed.

Lemma count_desc_total a b : count_desc a b = true \/ count_desc b a = true.
Proof. unfold count_desc. lia. Qed.

Lemma count_desc_trans a b c :
  count_desc a b = true -> count_desc b c = true -> count_desc a c = true.
Proof. unfold count_desc. lia. Qed.

Lemma doc_types_is_answer u rows : doc_types_answer u rows (doc_types u rows).
Proof.
  split; [apply order_by_Permutation|].
  eapply StronglySorted_weaken;
    [|apply (order_by_sorted count_desc count_desc_total count_desc_trans)].
  intros a b. unfold count_desc. lia.
Qed.

(** C3, as the code has it.  The distribution has one entry per
    document_type that occurs (non-null) among the user's document events,
    with the number of those events, and counts never increase along the
    list.  The query orders by count alone: this holds of the list the
    service returns and of any other arrangement the query text allows, and
    nothing more is fixed about entries with equal counts. *)
Theorem doc_types_grouped_count_desc u rows :
  doc_types_answer u rows (doc_types u rows) /\
  forall ans, doc_types_answer u rows ans ->
    (forall ty c, (ty, c) ∈ ans <->
       c = sql_count (filter (fun r => de_document_type r = Some ty)
                             (of_user u rows)) /\ (0 < c)%Z) /\
    NoDup ans.*1 /\
    StronglySorted (fun a b => (b.2 <= a.2)%Z) ans.
Proof.
  split; [apply doc_types_is_answer|].
  intros ans [Hperm Hsorted]. split; [|split; [|done]].
  - intros ty c. rewrite Hperm. apply elem_of_doc_type_groups.
  - rewrite Hperm, doc_type_groups_keys. apply NoDup_remove_dups.
Qed.

Lemma doc_types_grouped_count_desc_witness :
  let rows := rows_of (document_events contracts_and_invoice) in
  doc_types_answer 1%N rows [("contract"%string, 3%Z); ("invoice"%string, 1%Z)] /\
  NoDup [("contract"%string, 3%Z); ("invoice"%string, 1%Z)].*1.
Proof.
  intros rows.
  assert (Hans : doc_types_answer 1%N rows
                   [("contract"%string, 3%Z); ("invoice"%string, 1%Z)]).
  { split.
    - vm_compute. apply perm_swap.
    - repeat constructor; simpl; lia. }
  split; [exact Hans|].
  by apply (doc_types_grouped_count_desc 1%N rows).
Defined.

(** The distribution of three contract events and one invoice event: the
    counts differ, so every arrangement the query allows is the same list,
    and it is the one the service returns. *)
Lemma distribution_of_contracts_and_invoice :
  (exists body,
     get_user_analytics hex_uuid 10 U1 contracts_and_invoice = Ok body /\
     document_types body = [("contract"%string, 3%Z); ("invoice"%string, 1%Z)]) /\
  forall ans,
    doc_types_answer 1%N (rows_of (document_events contracts_and_invoice)) ans ->
    ans = [("contract"%string, 3%Z); ("invoice"%string, 1%Z)].
Proof.
  split; [eexists; split; reflexivity|].
  intros ans [Hperm Hsorted].
  assert (Hgroups :
    doc_type_groups 1%N (rows_of (document_events contracts_and_invoice)) =
      [("invoice"%string, 1%Z); ("contract"%string, 3%Z)]) by reflexivity.
  rewrite Hgroups in Hperm.
  apply Permutation_sym, Permutation_length_2_inv in Hperm as [-> | ->]; [|done].
  inversion Hsorted as [|? ? _ Hall]; subst.
  inversion Hall as [|? ? Hle _]; subst. simpl in Hle. lia.
Qed.

(** C3, counterexample.  With one invoice event followed by one contract
    event the counts tie; the service lists "invoice" before "contract", the
    query text allows either order, and the listed one is not ascending by
    document_type. *)
Lemma doc_types_ties_not_by_type :
  (exists body,
     get_user_analytics hex_uuid 10 U1 tied_types = Ok body /\
     document_types body = [("invoice"%string, 1%Z); ("contract"%string, 1%Z)]) /\
  doc_types_answer 1%N (rows_of (document_events tied_types))
    [("invoice"%string, 1%Z); ("contract"%string, 1%Z)] /\
  doc_types_answer 1%N (rows_of (document_events tied_types))
    [("contract"%string, 1%Z); ("invoice"%string, 1%Z)] /\
  ~ tie_break_ascending [("invoice"%string, 1%Z); ("contract"%string, 1%Z)].
Proof.
  split; [eexists; split; reflexivity|].
  assert (Hgroups :
    doc_type_groups 1%N (rows_of (document_events tied_types)) =
      [("invoice"%string, 1%Z); ("contract"%string, 1%Z)]) by reflexivity.
  unfold doc_types_answer. rewrite Hgroups.
  split; [|split].
  - split; [reflexivity|]. repeat constructor; simpl; lia.
  - split; [apply perm_swap|]. repeat constructor; simpl; lia.
  - intros Hsorted. inversion Hsorted as [|? ? _ Hall]; subst.
    inversion Hall as [|? ? Hrel _]; subst.
    destruct Hrel as [Hlt | [_ Hcmp]]; simpl in *; [lia|discriminate Hcmp].
Qed.

(** ** Recent activity *)

Lemma current_date_bounds now :
  (now - interval_days 1 < current_date now <= now)%Z.
Proof.
  unfold current_date, date_trunc_day, interval_days.
  pose proof (Z.mod_pos_bound now usec_per_day) as Hmod.
  unfold usec_per_day in *. lia.
Qed.

Lemma elem_of_since_days n now u rows r :
  r ∈ since_days n now u rows <->
  r ∈ rows /\ de_user_id r = u /\
  (current_date now - interval_days n <= de_created_at r)%Z.
Proof. unfold since_days. rewrite list_elem_of_filter. tauto. Qed.

Lemma since_days_drop n now u l1 l2 r :
  (de_created_at r < current_date now - interval_days n)%Z ->
  since_days n now u (l1 ++ r :: l2) = since_days n now u (l1 ++ l2).
Proof.
  intros Hold. unfold since_days. rewrite !filter_app, filter_cons_False; [done|].
  intros [_ H]. lia.
Qed.

(** C5, as the code has it.  The recent-activity query keeps the user's
    rows created at or after midnight of the current date minus thirty days,
    with no upper bound.  So an event created 31 days or more before the
    query is left out, for every store and query time; an event created 30
    days or less before the query (29 days, say) passes the window, is counted
    in the group of its event type and day, and that group is in the output
    whenever the window holds at most thirty groups. *)
Theorem recent_activity_window now u rows r :
  (forall r', r' ∈ since_days 30 now u rows <->
     r' ∈ rows /\ de_user_id r' = u /\
     (current_date now - interval_days 30 <= de_created_at r')%Z) /\
  ((de_created_at r <= now - interval_days 31)%Z ->
     (r ∉ since_days 30 now u rows) /\
     (forall l1 l2,
        recent_activity now u (l1 ++ r :: l2) = recent_activity now u (l1 ++ l2))) /\
  (r ∈ rows -> de_user_id r = u ->
   (now - interval_days 30 <= de_created_at r)%Z ->
     r ∈ since_days 30 now u rows /\
     exists g,
       g ∈ activity_groups now u rows /\
       ar_event_type g = de_event_type r /\
       ar_date g = date_trunc_day (de_created_at r) /\
       (1 <= ar_count g)%Z /\
       ((length (activity_groups now u rows) <= 30)%nat ->
        g ∈ recent_activity now u rows)).
Proof.
  pose proof (current_date_bounds now) as Hnow.
  split; [intros r'; apply elem_of_since_days|]. split.
  - intros Hold.
    assert (Hlt : (de_created_at r < current_date now - interval_days 30)%Z)
      by (unfold interval_days in *; lia).
    split.
    + intros (_ & _ & H)%elem_of_since_days. lia.
    + intros l1 l2. unfold recent_activity, activity_groups.
      by rewrite since_days_drop.
  - intros Hr Hu Hnew.
    assert (Hin : r ∈ since_days 30 now u rows).
    { apply elem_of_since_days. repeat split; [done..|].
      unfold interval_days in *. lia. }
    split; [exact Hin|].
    set (key := fun x : DocumentRow =>
                  (de_event_type x, date_trunc_day (de_created_at x))).
    destruct (group_by_row key (since_days 30 now u rows) r Hin) as [Hgroup Hmember].
    eexists {| ar_event_type := de_event_type r;
               ar_count := sql_count (filter (fun x => key x = key r)
                                             (since_days 30 now u rows));
               ar_date := date_trunc_day (de_created_at r) |}.
    assert (Hg : {| ar_event_type := de_event_type r;
                    ar_count := sql_count (filter (fun x => key x = key r)
                                                  (since_days 30 now u rows));
                    ar_date := date_trunc_day (de_created_at r) |}
                 ∈ activity_groups now u rows).
    { unfold activity_groups. apply list_elem_of_fmap.
      eexists (key r, _). split; [|exact Hgroup]. reflexivity. }
    split; [exact Hg|]. simpl. repeat split.
    + pose proof (sql_count_pos_elem _ _ Hmember). lia.
    + intros Hlen. unfold recent_activity.
      rewrite take_ge by (by rewrite order_by_Permutation).
      by rewrite order_by_Permutation.
Qed.

Lemma recent_activity_window_witness :
  let now := at_day 100 12 in
  let old :=
    {| de_id := 7%N; de_user_id := 1%N; de_document_id := None;
       de_event_type := "generation"; de_document_type := None;
       de_ai_service := None; de_duration_seconds := None;
       de_status := "success"; de_metadata := None;
       de_created_at := (now - interval_days 31)%Z |} in
  let young :=
    {| de_id := 8%N; de_user_id := 1%N; de_document_id := None;
       de_event_type := "generation"; de_document_type := None;
       de_ai_service := None; de_duration_seconds := None;
       de_status := "success"; de_metadata := None;
       de_created_at := (now - interval_days 29)%Z |} in
  (old ∉ since_days 30 now 1%N [old; young]) /\
  young ∈ since_days 30 now 1%N [old; young].
Proof.
  intros now old young. split.
  - apply (recent_activity_window now 1%N [old; young] old).
    vm_compute. discriminate.
  - apply (recent_activity_window now 1%N [old; young] young).
    + right. left.
    + reflexivity.
    + vm_compute. discriminate.
Defined.

(** C5, counterexample.  Queried on day 100 at 12:00: an event created 30
    days and 6 hours earlier, outside the thirty days that end at the query,
    is reported; and in a store with two groups a day over the last fifteen
    days, the group of an event created exactly 29 days earlier falls to
    LIMIT 30. *)
Lemma recent_activity_not_trailing_window :
  let now := at_day 100 12 in
  (exists body row,
     rows_of (document_events stale_store) = [row] /\
     de_created_at row = (now - interval_days 30 - 6 * usec_per_hour)%Z /\
     ~ within_trailing_days 30 now (de_created_at row) /\
     get_user_analytics hex_uuid now U1 stale_store = Ok body /\
     ua_recent_activity body =
       [ {| ar_event_type := "generation"; ar_count := 1; ar_date := at_day 70 0 |} ]) /\
  (exists body row,
     row ∈ rows_of (document_events crowded_store) /\
     de_user_id row = 1%N /\
     de_created_at row = (now - interval_days 29)%Z /\
     within_trailing_days 30 now (de_created_at row) /\
     get_user_analytics hex_uuid now U1 crowded_store = Ok body /\
     length (ua_recent_activity body) = 30%nat /\
     Forall (fun g => ar_date g <> date_trunc_day (de_created_at row))
            (ua_recent_activity body)).
Proof.
  intros now. split.
  - eexists _, _. split; [reflexivity|]. split; [reflexivity|].
    split; [|split; reflexivity].
    unfold within_trailing_days. vm_compute. intros [H _]. by apply H.
  - eexists _, _. split.
    { let rows := eval vm_compute in (rows_of (document_events crowded_store)) in
      change (rows_of (document_events crowded_store)) with rows.
      left. }
    split; [reflexivity|]. split; [reflexivity|].
    split; [unfold within_trailing_days; vm_compute; split; discriminate|].
    split; [vm_compute; reflexivity|].
    split; [vm_compute; reflexivity|].
    vm_compute. repeat constructor; discriminate.
Qed.

(** * Further properties of the handlers *)

(** ** Outcomes of the two inserts *)

Lemma record_document_event_cases cast fresh now event db :
  (exists t u d,
     document_events db = Some t /\
     cast (user_id event) = Some u /\
     cast_optional_uuid cast (document_id event) = Some d /\
     record_document_event cast fresh now event db =
       (Ok recorded,
        with_document_events db
          (append_row t (stored_document_row fresh now u d event)))) \/
  ((document_events db = None \/ cast (user_id event) = None \/
    cast_optional_uuid cast (document_id event) = None) /\
   record_document_event cast fresh now event db = (storage_error, db)).
Proof.
  unfold record_document_event.
  destruct (document_events db) as [t|] eqn:Ht; [|right; auto].
  destruct (cast (user_id event)) as [u|] eqn:Hu; [|right; auto].
  destruct (cast_optional_uuid cast (document_id event)) as [d|] eqn:Hd;
    [|right; auto].
  left. exists t, u, d. repeat split.
Qed.

Lemma record_blockchain_event_cases cast fresh now event db :
  (exists t u d g,
     blockchain_events db = Some t /\
     cast (b_user_id event) = Some u /\
     cast_optional_uuid cast (b_document_id event) = Some d /\
     cast_optional_bigint (b_gas_used event) = Some g /\
     record_blockchain_event cast fresh now event db =
       (Ok recorded,
        with_blockchain_events db
          (append_row t (stored_blockchain_row fresh now u d g event)))) \/
  ((blockchain_events db = None \/ cast (b_user_id event) = None \/
    cast_optional_uuid cast (b_document_id event) = None \/
    cast_optional_bigint (b_gas_used event) = None) /\
   record_blockchain_event cast fresh now event db = (storage_error, db)).
Proof.
  unfold record_blockchain_event.
  destruct (blockchain_events db) as [t|] eqn:Ht; [|right; auto].
  destruct (cast (b_user_id event)) as [u|] eqn:Hu; [|right; auto].
  destruct (cast_optional_uuid cast (b_document_id event)) as [d|] eqn:Hd;
    [|right; auto].
  destruct (cast_optional_bigint (b_gas_used event)) as [g|] eqn:Hg;
    [|right; auto 6].
  left. exists t, u, d, g. repeat split.
Qed.

(** The edge of BIGINT at work: the largest signed 64-bit gas figure is
    stored, the next integer is refused with status 500 and nothing is
    written. *)
Lemma gas_used_at_the_edge_of_bigint :
  (post_events_blockchain hex_uuid 9%N 100 (gas_body (2 ^ 63 - 1)) started).1
    = Ok recorded /\
  post_events_blockchain hex_uuid 9%N 100 (gas_body (2 ^ 63)) started
    = (HTTPException 500, started).
Proof. split; reflexivity. Qed.

(** ** Inserts into different tables *)

(** X5. A document insert and a blockchain insert do not interfere: done
    in either order they leave the same database, and each is acknowledged or
    refused exactly as it would be on its own. *)
Theorem inserts_to_different_tables_commute cast f1 n1 f2 n2 devent bevent db :
  let d_first := record_document_event cast f1 n1 devent db in
  let b_first := record_blockchain_event cast f2 n2 bevent db in
  (record_blockchain_event cast f2 n2 bevent d_first.2).2 =
    (record_document_event cast f1 n1 devent b_first.2).2 /\
  (record_blockchain_event cast f2 n2 bevent d_first.2).1 = b_first.1 /\
  (record_document_event cast f1 n1 devent b_first.2).1 = d_first.1.
Proof.
  cbv zeta.
  destruct (record_document_event_cases cast f1 n1 devent db)
    as [(t & u & d & Ht & Hu & Hd & Hdoc) | [Hnone Hdoc]];
  destruct (record_blockchain_event_cases cast f2 n2 bevent db)
    as [(t' & u' & d' & g' & Ht' & Hu' & Hd' & Hg' & Hbc) | [Hnone' Hbc]];
  rewrite Hdoc, Hbc; simpl.
  - unfold record_blockchain_event, record_document_event; simpl.
    rewrite Ht, Hu, Hd, Ht', Hu', Hd', Hg'. by repeat split.
  - rewrite Hdoc. simpl.
    assert (Hstill : record_blockchain_event cast f2 n2 bevent
              (with_document_events db
                 (append_row t (stored_document_row f1 n1 u d devent)))
            = (storage_error,
               with_document_events db
                 (append_row t (stored_document_row f1 n1 u d devent)))).
    { unfold record_blockchain_event; simpl.
      destruct (blockchain_events db), (cast (b_user_id bevent)),
        (cast_optional_uuid cast (b_document_id bevent)),
        (cast_optional_bigint (b_gas_used bevent)); try done.
      destruct Hnone' as [H|[H|[H|H]]]; discriminate H. }
    rewrite Hstill. by repeat split.
  - rewrite Hbc. simpl.
    assert (Hstill : record_document_event cast f1 n1 devent
              (with_blockchain_events db
                 (append_row t' (stored_blockchain_row f2 n2 u' d' g' bevent)))
            = (storage_error,
               with_blockchain_events db
                 (append_row t' (stored_blockchain_row f2 n2 u' d' g' bevent)))).
    { unfold record_document_event; simpl.
      destruct (document_events db), (cast (user_id devent)),
        (cast_optional_uuid cast (document_id devent)); try done.
      destruct Hnone as [H|[H|H]]; discriminate H. }
    rewrite Hstill. by repeat split.
  - rewrite Hdoc, Hbc. by repeat split.
Qed.

(** ** A user's body depends on that user's rows only *)

Lemma get_user_analytics_unfold cast now user db :
  get_user_analytics cast now user db =
    match document_events db, blockchain_events db, cast user with
    | Some td, Some tc, Some u => Ok (user_body user now u (tbl_rows td) (tbl_rows tc))
    | _, _, _ => storage_error
    end.
Proof.
  unfold get_user_analytics, scan, mbind, response_bind.
  by destruct (document_events db), (blockchain_events db), (cast user).
Qed.

Lemma user_body_ext user now u docs docs' chain chain' :
  of_user u docs = of_user u docs' ->
  bc_of_user u chain = bc_of_user u chain' ->
  user_body user now u docs chain = user_body user now u docs' chain'.
Proof.
  intros Hdocs Hchain.
  unfold user_body, doc_stats, blockchain_stats, doc_types, doc_type_groups,
    recent_activity, activity_groups, performance_trend, trend_groups.
  rewrite !since_days_of_user. by rewrite Hdocs, Hchain.
Qed.

Lemma of_user_snoc u rows row :
  of_user u (rows ++ [row]) =
    of_user u rows ++ (if decide (de_user_id row = u) then [row] else []).
Proof. unfold of_user. by rewrite filter_app, filter_cons, filter_nil. Qed.

Lemma bc_of_user_snoc u rows row :
  bc_of_user u (rows ++ [row]) =
    bc_of_user u rows ++ (if decide (be_user_id row = u) then [row] else []).
Proof. unfold bc_of_user. by rewrite filter_app, filter_cons, filter_nil. Qed.

(** X6. Users are isolated from each other.  Recording an event of another
    user, in either table and whether or not the insert is acknowledged,
    leaves the whole analytics answer of user [u] as it was. *)
Theorem other_users_events_invisible cast fresh now later user u devent bevent db :
  cast user = Some u ->
  cast (user_id devent) <> Some u ->
  cast (b_user_id bevent) <> Some u ->
  get_user_analytics cast later user
      (record_document_event cast fresh now devent db).2
    = get_user_analytics cast later user db /\
  get_user_analytics cast later user
      (record_blockchain_event cast fresh now bevent db).2
    = get_user_analytics cast later user db.
Proof.
  intros Hu Hd Hb. split.
  - destruct (record_document_event_cases cast fresh now devent db)
      as [(t & v & d & Ht & Hv & _ & ->) | [_ ->]]; [|done].
    rewrite !get_user_analytics_unfold. simpl. rewrite Ht, Hu.
    destruct (blockchain_events db) as [tc|]; [|done].
    f_equal. apply user_body_ext; [|done].
    rewrite of_user_snoc. simpl. rewrite decide_False by congruence.
    by rewrite app_nil_r.
  - destruct (record_blockchain_event_cases cast fresh now bevent db)
      as [(t & v & d & g & Ht & Hv & _ & _ & ->) | [_ ->]]; [|done].
    rewrite !get_user_analytics_unfold. simpl. rewrite Ht, Hu.
    destruct (document_events db) as [td|]; [|done].
    f_equal. apply user_body_ext; [done|].
    rewrite bc_of_user_snoc. simpl. rewrite decide_False by congruence.
    by rewrite app_nil_r.
Qed.

Lemma other_users_events_invisible_witness :
  get_user_analytics hex_uuid 200 U1
      (record_document_event hex_uuid 9%N 100
         (document_event U2 "generation" None (Some 7) "success") three_statuses).2
    = get_user_analytics hex_uuid 200 U1 three_statuses.
Proof.
  apply (other_users_events_invisible hex_uuid 9%N 100%Z 200%Z U1 1%N
           (document_event U2 "generation" None (Some 7) "success")
           (blockchain_event U2 None "success") three_statuses).
  - reflexivity.
  - vm_compute. discriminate.
  - vm_compute. discriminate.
Defined.

(** ** How one insert moves the counters *)

Lemma sql_count_snoc {A : Type} (l : list A) (x : A) :
  sql_count (l ++ [x]) = (sql_count l + 1)%Z.
Proof. unfold sql_count. rewrite length_app. simpl. lia. Qed.

Lemma sql_count_when_snoc {A : Type} (P : A -> Prop) `{!forall x, Decision (P x)}
    (l : list A) (x : A) :
  sql_count_when P (l ++ [x]) = (sql_count_when P l + indicator (P x))%Z.
Proof.
  unfold sql_count_when, sql_count, indicator.
  rewrite filter_app, filter_cons, filter_nil, length_app.
  destruct (decide (P x)); simpl; lia.
Qed.

Lemma Zsum_app (l k : list Z) : Zsum (l ++ k) = (Zsum l + Zsum k)%Z.
Proof. unfold Zsum. induction l as [|z l IH]; simpl; lia. Qed.

Lemma or_0_sql_sum {A : Type} (f : A -> option Z) (rows : list A) :
  or_0 (sql_sum (f <$> rows)) = Zsum (omap f rows).
Proof.
  unfold sql_sum. rewrite omap_id_fmap. by destruct (omap f rows).
Qed.

Lemma cast_optional_bigint_Some (o g : option Z) :
  cast_optional_bigint o = Some g -> g = o.
Proof.
  destruct o as [z|]; simpl; [|by intros [= <-]].
  destruct (fits_bigint z); by intros [= <-].
Qed.

(** X7. After an acknowledged document insert for user [u], the documents
    summary of [u] has total one higher; successful, failed and
    status_changes are one higher exactly when the event's status is
    'success', its status is 'error', its event_type is 'status_change'; the
    blockchain summary is as before. *)
Theorem document_counters_step cast fresh now later user u event db db' before :
  record_document_event cast fresh now event db = (Ok recorded, db') ->
  cast user = Some u ->
  cast (user_id event) = Some u ->
  get_user_analytics cast later user db = Ok before ->
  exists after,
    get_user_analytics cast later user db' = Ok after /\
    total (documents after) = (total (documents before) + 1)%Z /\
    successful (documents after) =
      (successful (documents before)
       + indicator (status event = "success"%string))%Z /\
    failed (documents after) =
      (failed (documents before) + indicator (status event = "error"%string))%Z /\
    status_changes (documents after) =
      (status_changes (documents before)
       + indicator (event_type event = "status_change"%string))%Z /\
    blockchain after = blockchain before.
Proof.
  intros Hins Hu Hv Hbefore.
  destruct (record_document_event_cases cast fresh now event db)
    as [(t & v & d & Ht & Hv' & _ & Heq) | [_ Heq]];
    rewrite Heq in Hins; [|discriminate Hins].
  injection Hins as <-. assert (v = u) as -> by congruence.
  rewrite get_user_analytics_unfold in Hbefore |- *. simpl.
  rewrite Ht, Hu in *.
  destruct (blockchain_events db) as [tc|]; [|discriminate Hbefore].
  injection Hbefore as <-. eexists. split; [reflexivity|].
  unfold user_body, doc_stats; simpl.
  rewrite of_user_snoc. simpl. rewrite decide_True by done.
  rewrite sql_count_snoc, !sql_count_when_snoc. simpl.
  repeat split.
Qed.

Lemma document_counters_step_witness :
  exists after,
    get_user_analytics hex_uuid 200 U1
      (record_document_event hex_uuid 9%N 100
         (document_event U1 "status_change" None None "error") three_statuses).2
      = Ok after /\
    total (documents after) = 4%Z /\
    failed (documents after) = 2%Z.
Proof.
  pose proof (document_counters_step hex_uuid 9%N 100%Z 200%Z U1 1%N
                (document_event U1 "status_change" None None "error")
                three_statuses) as T.
  destruct (get_user_analytics hex_uuid 200 U1 three_statuses)
    as [before|c] eqn:E; [|vm_compute in E; discriminate E].
  destruct (T _ before eq_refl eq_refl eq_refl eq_refl)
    as (after & Hafter & Htotal & _ & Hfailed & _).
  exists after. split; [exact Hafter|].
  rewrite Htotal, Hfailed. injection E as <-. split; reflexivity.
Defined.

(** X8. After an acknowledged blockchain insert for user [u], the
    blockchain summary of [u] has total_transactions one higher,
    successful_transactions one higher exactly when the event's status is
    'success', and total_gas_used higher by the event's gas_used (by nothing
    when it is absent); the documents summary is as before. *)
Theorem blockchain_counters_step cast fresh now later user u event db db' before :
  record_blockchain_event cast fresh now event db = (Ok recorded, db') ->
  cast user = Some u ->
  cast (b_user_id event) = Some u ->
  get_user_analytics cast later user db = Ok before ->
  exists after,
    get_user_analytics cast later user db' = Ok after /\
    total_transactions (blockchain after) =
      (total_transactions (blockchain before) + 1)%Z /\
    successful_transactions (blockchain after) =
      (successful_transactions (blockchain before)
       + indicator (b_status event = "success"%string))%Z /\
    total_gas_used (blockchain after) =
      (total_gas_used (blockchain before) + default 0%Z (b_gas_used event))%Z /\
    documents after = documents before.
Proof.
  intros Hins Hu Hv Hbefore.
  destruct (record_blockchain_event_cases cast fresh now event db)
    as [(t & v & d & g & Ht & Hv' & _ & Hg & Heq) | [_ Heq]];
    rewrite Heq in Hins; [|discriminate Hins].
  injection Hins as <-. assert (v = u) as -> by congruence.
  apply cast_optional_bigint_Some in Hg as ->.
  rewrite get_user_analytics_unfold in Hbefore |- *. simpl.
  rewrite Ht, Hu in *.
  destruct (document_events db) as [td|]; [|discriminate Hbefore].
  injection Hbefore as <-. eexists. split; [reflexivity|].
  unfold user_body, blockchain_stats; simpl.
  rewrite !or_0_sql_sum, bc_of_user_snoc. simpl. rewrite decide_True by done.
  rewrite sql_count_snoc, !sql_count_when_snoc, omap_app, Zsum_app. simpl.
  repeat split. destruct (b_gas_used event); simpl; lia.
Qed.

Lemma blockchain_counters_step_witness :
  exists after,
    get_user_analytics hex_uuid 200 U1
      (record_blockchain_event hex_uuid 9%N 100
         {| b_user_id := U1; b_document_id := None; b_transaction_id := None;
            b_network := "hedera"; b_transaction_type := "anchor";
            b_duration_seconds := None; b_status := "success";
            b_gas_used := Some 21000%Z; b_metadata := None |}
         one_timed_one_untimed).2
      = Ok after /\
    total_transactions (blockchain after) = 3%Z /\
    total_gas_used (blockchain after) = 21000%Z.
Proof.
  pose proof (blockchain_counters_step hex_uuid 9%N 100%Z 200%Z U1 1%N
                {| b_user_id := U1; b_document_id := None; b_transaction_id := None;
                   b_network := "hedera"; b_transaction_type := "anchor";
                   b_duration_seconds := None; b_status := "success";
                   b_gas_used := Some 21000%Z; b_metadata := None |}
                one_timed_one_untimed) as T.
  destruct (get_user_analytics hex_uuid 200 U1 one_timed_one_untimed)
    as [before|c] eqn:E; [|vm_compute in E; discriminate E].
  destruct (T _ before eq_refl eq_refl eq_refl eq_refl)
    as (after & Hafter & Htotal & _ & Hgas & _).
  exists after. split; [exact Hafter|].
  rewrite Htotal, Hgas. injection E as <-. split; reflexivity.
Defined.

(** ** Calendar days *)

Lemma date_trunc_day_div (t : Z) :
  date_trunc_day t = (usec_per_day * (t / usec_per_day))%Z.
Proof.
  unfold date_trunc_day.
  pose proof (Z_div_mod_eq_full t usec_per_day). lia.
Qed.

Lemma date_trunc_day_bounds (t : Z) :
  (date_trunc_day t <= t < date_trunc_day t + usec_per_day)%Z.
Proof.
  unfold date_trunc_day.
  pose proof (Z.mod_pos_bound t usec_per_day) as H.
  unfold usec_per_day in *. lia.
Qed.

Lemma date_trunc_day_midnight (t : Z) : (date_trunc_day t mod usec_per_day = 0)%Z.
Proof.
  rewrite date_trunc_day_div, Z.mul_comm. by apply Z_mod_mult.
Qed.

Lemma date_trunc_day_mono (t t' : Z) :
  (t <= t')%Z -> (date_trunc_day t <= date_trunc_day t')%Z.
Proof.
  intros H. rewrite !date_trunc_day_div.
  apply Z.mul_le_mono_nonneg_l; [unfold usec_per_day; lia|].
  apply Z.div_le_mono; [unfold usec_per_day; lia|done].
Qed.

Lemma date_trunc_day_of_midnight (t : Z) :
  (t mod usec_per_day = 0)%Z -> date_trunc_day t = t.
Proof. unfold date_trunc_day. lia. Qed.

Lemma window_start_midnight (n now : Z) :
  ((current_date now - interval_days n) mod usec_per_day = 0)%Z.
Proof.
  unfold current_date, interval_days.
  rewrite date_trunc_day_div.
  replace (usec_per_day * (now / usec_per_day) - n * usec_per_day)%Z
    with ((now / usec_per_day - n) * usec_per_day)%Z by lia.
  by apply Z_mod_mult.
Qed.

(** A row inside the window has its day inside the window. *)
Lemma since_days_day n now u rows r :
  r ∈ since_days n now u rows ->
  (current_date now - interval_days n <= date_trunc_day (de_created_at r))%Z.
Proof.
  intros (_ & _ & H)%elem_of_since_days.
  rewrite <- (date_trunc_day_of_midnight (current_date now - interval_days n))
    by apply window_start_midnight.
  by apply date_trunc_day_mono.
Qed.

(** ** Sorted prefixes and sums over groups *)

Lemma StronglySorted_take {A : Type} (R : A -> A -> Prop) (n : nat) (l : list A) :
  StronglySorted R l -> StronglySorted R (take n l).
Proof.
  intros H. revert n. induction H as [|x l Hl IH Hx]; intros [|n]; simpl;
    try constructor; [apply IH|by apply Forall_take].
Qed.


Lemma Zsum_Permutation (l k : list Z) : l ≡ₚ k -> Zsum l = Zsum k.
Proof. unfold Zsum. induction 1; simpl; lia. Qed.

Lemma Zsum_indicator {K : Type} `{!EqDecision K} (k0 : K) (ks : list K) :
  NoDup ks ->
  Zsum ((fun k => indicator (k0 = k)) <$> ks) = indicator (k0 ∈ ks).
Proof.
  unfold indicator.
  induction 1 as [|k ks Hk Hnd IH]; [by rewrite decide_False by apply not_elem_of_nil|].
  csimpl. unfold Zsum in *. simpl. rewrite IH.
  destruct (decide (k0 = k)) as [->|Hne].
  - rewrite decide_False by done. rewrite decide_True by left. done.
  - destruct (decide (k0 ∈ ks)) as [Hin|Hnin].
    + rewrite decide_True by (by right). done.
    + rewrite decide_False; [done|].
      intros [?|?]%elem_of_cons; congruence.
Qed.

Section GroupSizes.

Context {A K : Type} `{!EqDecision K} (key : A -> K).

Lemma group_sizes_sum (ks : list K) (rows : list A) :
  NoDup ks -> (forall r, r ∈ rows -> key r ∈ ks) ->
  Zsum ((fun k => sql_count (filter (fun r => key r = k) rows)) <$> ks)
    = sql_count rows.
Proof.
  intros Hnd. induction rows as [|r rows IH]; intros Hkeys.
  - unfold sql_count; simpl. clear. induction ks; [done|]. csimpl.
    unfold Zsum in *. simpl. by rewrite IHks.
  - transitivity
      (Zsum ((fun k => indicator (key r = k)) <$> ks) +
       Zsum ((fun k => sql_count (filter (fun x => key x = k) rows)) <$> ks))%Z.
    + clear. induction ks as [|k ks IHks]; [done|]. csimpl.
      unfold Zsum in *. simpl. rewrite IHks. rewrite filter_cons.
      unfold indicator, sql_count. destruct (decide (key r = k)); simpl; lia.
    + rewrite Zsum_indicator by done. rewrite IH.
      * unfold indicator. rewrite decide_True by (apply Hkeys; left).
        unfold sql_count; simpl. lia.
      * intros x Hx. apply Hkeys. by right.
Qed.

(** Every row is counted in exactly one group. *)
Lemma group_by_sizes_sum (rows : list A) :
  Zsum ((fun g => sql_count g.2) <$> group_by key rows) = sql_count rows.
Proof.
  unfold group_by. rewrite <- list_fmap_compose.
  rewrite <- (group_sizes_sum (remove_dups (key <$> rows)) rows).
  - by apply (f_equal Zsum), list_fmap_ext.
  - apply NoDup_remove_dups.
  - intros r Hr. apply elem_of_remove_dups. by apply list_elem_of_fmap_2.
Qed.

Lemma group_by_nonempty (rows : list A) (g : K * list A) :
  g ∈ group_by key rows ->
  (1 <= sql_count g.2)%Z /\ exists r, r ∈ rows /\ key r = g.1.
Proof.
  destruct g as [k grp]. intros [Hk ->]%elem_of_group_by.
  apply list_elem_of_fmap in Hk as (r & -> & Hr). simpl. split; [|by eauto].
  assert (r ∈ filter (fun x => key x = key r) rows) as Hin
    by (by apply list_elem_of_filter).
  pose proof (sql_count_pos_elem _ _ Hin). lia.
Qed.

End GroupSizes.


Lemma date_desc_total a b : date_desc a b = true \/ date_desc b a = true.
Proof. unfold date_desc. lia. Qed.

Lemma date_desc_trans a b c :
  date_desc a b = true -> date_desc b c = true -> date_desc a c = true.
Proof. unfold date_desc. lia. Qed.



(** ** Shape of the recent-activity list *)

Lemma activity_groups_keys now u rows :
  (fun g => (ar_event_type g, ar_date g)) <$> activity_groups now u rows =
  (group_by (fun r => (de_event_type r, date_trunc_day (de_created_at r)))
            (since_days 30 now u rows)).*1.
Proof.
  unfold activity_groups. rewrite <- list_fmap_compose.
  apply list_fmap_ext. by intros _ [[] ] _.
Qed.

(** X9. The recent_activity list of every answer has at most 30 entries,
    with dates that never increase along the list; no two entries share both
    event type and date; every entry counts at least one event, and its date
    is a midnight not earlier than the current date minus thirty days. *)
Theorem recent_activity_shape cast now user db body :
  get_user_analytics cast now user db = Ok body ->
  (length (ua_recent_activity body) <= 30)%nat /\
  StronglySorted (fun a b => (ar_date b <= ar_date a)%Z) (ua_recent_activity body) /\
  NoDup ((fun g => (ar_event_type g, ar_date g)) <$> ua_recent_activity body) /\
  Forall (fun g => (1 <= ar_count g)%Z /\
                   (ar_date g mod usec_per_day = 0)%Z /\
                   (current_date now - interval_days 30 <= ar_date g)%Z)
         (ua_recent_activity body).
Proof.
  intros (td & tc & u & _ & _ & _ & ->)%get_user_analytics_Ok. simpl.
  unfold recent_activity. repeat split.
  - rewrite length_take. lia.
  - apply StronglySorted_take.
    eapply StronglySorted_weaken;
      [|apply (order_by_sorted date_desc date_desc_total date_desc_trans)].
    intros a b. unfold date_desc. lia.
  - rewrite fmap_take.
    eapply sublist_NoDup; [|apply sublist_take].
    rewrite order_by_Permutation, activity_groups_keys.
    apply NoDup_group_by_keys.
  - apply Forall_take. rewrite order_by_Permutation.
    unfold activity_groups. apply Forall_fmap, Forall_forall.
    intros g [Hcount (r & Hr & Hkey)]%group_by_nonempty. simpl.
    rewrite <- Hkey. simpl.
    split; [done|]. split; [apply date_trunc_day_midnight|].
    by eapply since_days_day.
Qed.

Lemma recent_activity_shape_witness :
  exists body,
    get_user_analytics hex_uuid (at_day 100 12) U1 crowded_store = Ok body /\
    (length (ua_recent_activity body) <= 30)%nat.
Proof.
  pose proof (recent_activity_shape hex_uuid (at_day 100 12) U1 crowded_store) as T.
  destruct (get_user_analytics hex_uuid (at_day 100 12) U1 crowded_store)
    as [body|c] eqn:E; [|vm_compute in E; discriminate E].
  exists body. split; [reflexivity|]. by apply T.
Defined.

(** ** Shape of the performance trend *)




(** ** Consistency between the parts of one answer *)

Lemma length_omap_filter {A B : Type} (f : A -> option B) (l : list A) :
  length (omap f l) = length (filter (fun x => is_Some (f x)) l).
Proof.
  induction l as [|x l IH]; [done|]. csimpl. rewrite filter_cons.
  destruct (f x) as [y|] eqn:Hfx.
  - rewrite decide_True by eauto. simpl. by rewrite IH.
  - rewrite decide_False by (by intros [? [=]]). done.
Qed.

Lemma sql_count_when_le {A : Type} (P : A -> Prop) `{!forall x, Decision (P x)}
    (l : list A) :
  (0 <= sql_count_when P l <= sql_count l)%Z.
Proof.
  unfold sql_count_when, sql_count. pose proof (length_filter P l). lia.
Qed.

(** X11. The counts of the document-type distribution add up to the number
    of the user's document events that carry a document_type, which is at
    most documents.total; every entry of the distribution counts at least
    one event. *)
Theorem document_types_add_up cast now user db body :
  get_user_analytics cast now user db = Ok body ->
  exists u,
    cast user = Some u /\
    Zsum (document_types body).*2 =
      sql_count_when (fun r => is_Some (de_document_type r))
                     (of_user u (rows_of (document_events db))) /\
    (Zsum (document_types body).*2 <= total (documents body))%Z /\
    Forall (fun entry => (1 <= entry.2)%Z) (document_types body).
Proof.
  intros (td & tc & u & Htd & _ & Hu & ->)%get_user_analytics_Ok.
  exists u. split; [done|]. rewrite Htd. simpl.
  assert (Hsum : Zsum (doc_types u (tbl_rows td)).*2 =
    sql_count_when (fun r => is_Some (de_document_type r))
                   (of_user u (tbl_rows td))).
  { unfold doc_types.
    rewrite (Zsum_Permutation _ (doc_type_groups u (tbl_rows td)).*2)
      by (by rewrite order_by_Permutation).
    unfold doc_type_groups. rewrite <- list_fmap_compose.
    etransitivity; [apply (group_by_sizes_sum id)|].
    unfold sql_count_when, sql_count. by rewrite length_omap_filter. }
  split; [exact Hsum|]. split.
  - rewrite Hsum. apply sql_count_when_le.
  - unfold doc_types. rewrite order_by_Permutation.
    unfold doc_type_groups. apply Forall_fmap, Forall_forall.
    by intros g [Hcount _]%group_by_nonempty.
Qed.

Lemma document_types_add_up_witness :
  exists body,
    get_user_analytics hex_uuid 10 U1 contracts_and_invoice = Ok body /\
    Zsum (document_types body).*2 = 4%Z.
Proof.
  pose proof (document_types_add_up hex_uuid 10 U1 contracts_and_invoice) as T.
  destruct (get_user_analytics hex_uuid 10 U1 contracts_and_invoice)
    as [body|c] eqn:E; [|vm_compute in E; discriminate E].
  exists body. split; [reflexivity|].
  destruct (T body eq_refl) as (u & Hu & Hsum & _).
  rewrite Hsum. injection Hu as <-. vm_compute. reflexivity.
Defined.

(** X12. In every answer the partial counts stay within the totals:
    successful_transactions lies between 0 and total_transactions,
    status_changes between 0 and documents.total; total_transactions is the
    number of the user's blockchain events and total_gas_used the sum of the
    gas figures that are present among them. *)
Theorem summary_counts_bounded cast now user db body :
  get_user_analytics cast now user db = Ok body ->
  (0 <= successful_transactions (blockchain body)
     <= total_transactions (blockchain body))%Z /\
  (0 <= status_changes (documents body) <= total (documents body))%Z /\
  exists u,
    cast user = Some u /\
    total_transactions (blockchain body) =
      sql_count (bc_of_user u (rows_of (blockchain_events db))) /\
    total_gas_used (blockchain body) =
      Zsum (omap be_gas_used (bc_of_user u (rows_of (blockchain_events db)))).
Proof.
  intros (td & tc & u & _ & Htc & Hu & ->)%get_user_analytics_Ok.
  rewrite Htc. simpl.
  split; [apply sql_count_when_le|]. split; [apply sql_count_when_le|].
  exists u. split; [done|]. split; [done|]. apply or_0_sql_sum.
Qed.

Lemma summary_counts_bounded_witness :
  exists body,
    get_user_analytics hex_uuid 10 U1 one_timed_one_untimed = Ok body /\
    (successful_transactions (blockchain body)
       <= total_transactions (blockchain body))%Z.
Proof.
  pose proof (summary_counts_bounded hex_uuid 10 U1 one_timed_one_untimed) as T.
  destruct (get_user_analytics hex_uuid 10 U1 one_timed_one_untimed)
    as [body|c] eqn:E; [|vm_compute in E; discriminate E].
  exists body. split; [reflexivity|]. by apply T.
Defined.

(** ** Reads, startup and missing tables *)

Lemma get_system_analytics_unfold db :
  get_system_analytics db =
    match document_events db, blockchain_events db with
    | Some td, Some tc => Ok (system_body (tbl_rows td) (tbl_rows tc))
    | _, _ => storage_error
    end.
Proof.
  unfold get_system_analytics, scan, mbind, response_bind.
  by destruct (document_events db), (blockchain_events db).
Qed.

(** X13. On a database whose existing event tables have the declared
    columns, the startup hook leaves event tables with the declared columns,
    and afterwards both reads are served: the system summary always, the
    user summary for every user_id that casts to a UUID, and the body echoes
    that user_id.  Without document_events or blockchain_events both reads
    answer 500; user_sessions is never read. *)
Theorem reads_need_the_event_tables cast now user db :
  (declared_event_columns db ->
   declared_event_columns (startup_event db) /\
   (exists sys, get_system_analytics (startup_event db) = Ok sys) /\
   (is_Some (cast user) ->
    exists body,
      get_user_analytics cast now user (startup_event db) = Ok body /\
      ua_user_id body = user)) /\
  (document_events db = None \/ blockchain_events db = None ->
   get_system_analytics db = HTTPException 500 /\
   get_user_analytics cast now user db = HTTPException 500) /\
  (forall sessions,
     let db' := {| document_events := document_events db;
                   blockchain_events := blockchain_events db;
                   user_sessions := sessions |} in
     get_system_analytics db' = get_system_analytics db /\
     get_user_analytics cast now user db' = get_user_analytics cast now user db).
Proof.
  pose proof (init_database_initialised db) as ([td Htd] & [tc Htc] & _).
  unfold startup_event. split; [|split].
  - intros [Hdocs Hchain]. split; [|split].
    + unfold declared_event_columns, init_database, create_table_if_not_exists.
      simpl. split.
      * destruct (document_events db) as [t0|] eqn:Ht0; intros t [= <-];
          [by apply Hdocs|done].
      * destruct (blockchain_events db) as [t0|] eqn:Ht0; intros t [= <-];
          [by apply Hchain|done].
    + rewrite get_system_analytics_unfold, Htd, Htc. by eexists.
    + intros [u Hu].
      exists (user_body user now u (tbl_rows td) (tbl_rows tc)). split; [|done].
      by rewrite get_user_analytics_unfold, Htd, Htc, Hu.
  - intros Hmissing. split.
    + rewrite get_system_analytics_unfold.
      destruct Hmissing as [-> | ->]; [done|]. by destruct (document_events db).
    + rewrite get_user_analytics_unfold.
      destruct Hmissing as [-> | ->]; [done|]. by destruct (document_events db).
  - intros sessions. cbv zeta.
    split; [by rewrite !get_system_analytics_unfold
           |by rewrite !get_user_analytics_unfold].
Qed.

Lemma reads_need_the_event_tables_witness :
  (exists body,
     get_user_analytics hex_uuid 10 U1 (startup_event three_statuses) = Ok body /\
     ua_user_id body = U1) /\
  get_system_analytics empty_database = HTTPException 500.
Proof.
  split.
  - destruct (reads_need_the_event_tables hex_uuid 10%Z U1 three_statuses)
      as (Hok & _ & _).
    apply Hok.
    + split; intros t Ht; vm_compute in Ht; by injection Ht as <-.
    + vm_compute. eauto.
  - destruct (reads_need_the_event_tables hex_uuid 10%Z U1 empty_database)
      as (_ & Hmissing & _).
    apply Hmissing. by left.
Defined.

(** ** The system-wide summary under inserts *)

Lemma sql_count_distinct_snoc {K : Type} `{!EqDecision K} (cells : list K) (k : K) :
  sql_count_distinct (cells ++ [k]) =
    (sql_count_distinct cells + indicator (k ∉ cells))%Z.
Proof.
  unfold indicator. destruct (decide (k ∉ cells)) as [Hnew|Hold].
  - rewrite (sql_count_distinct_NoDup (cells ++ [k]) (k :: remove_dups cells)).
    + unfold sql_count_distinct, sql_count. simpl. lia.
    + apply NoDup_cons. split; [by rewrite elem_of_remove_dups|].
      apply NoDup_remove_dups.
    + intros x. rewrite elem_of_cons, elem_of_remove_dups, elem_of_app,
        list_elem_of_singleton. tauto.
  - apply dec_stable in Hold.
    rewrite (sql_count_distinct_NoDup (cells ++ [k]) (remove_dups cells)).
    + unfold sql_count_distinct, sql_count. lia.
    + apply NoDup_remove_dups.
    + intros x. rewrite elem_of_remove_dups, elem_of_app,
        list_elem_of_singleton. split; [tauto|]. intros [?| ->]; done.
Qed.

(** X14. How one acknowledged insert moves the system summary.  A document
    event raises total_documents by one exactly when its event_type is
    'generation', raises total_users by one exactly when its user has no
    document event yet, and leaves total_transactions and the blockchain
    average alone.  A blockchain event raises total_transactions by one and
    leaves total_users, total_documents and the document average alone. *)
Theorem system_counters_step cast fresh now devent bevent db before :
  get_system_analytics db = Ok before ->
  (forall db' u,
     record_document_event cast fresh now devent db = (Ok recorded, db') ->
     cast (user_id devent) = Some u ->
     exists after,
       get_system_analytics db' = Ok after /\
       total_documents after =
         (total_documents before
          + indicator (event_type devent = "generation"%string))%Z /\
       total_users after =
         (total_users before
          + indicator (u ∉ de_user_id <$> rows_of (document_events db)))%Z /\
       sys_total_transactions after = sys_total_transactions before /\
       avg_blockchain_transaction_time after =
         avg_blockchain_transaction_time before) /\
  (forall db',
     record_blockchain_event cast fresh now bevent db = (Ok recorded, db') ->
     exists after,
       get_system_analytics db' = Ok after /\
       sys_total_transactions after = (sys_total_transactions before + 1)%Z /\
       total_users after = total_users before /\
       total_documents after = total_documents before /\
       avg_document_generation_time after = avg_document_generation_time before).
Proof.
  rewrite get_system_analytics_unfold.
  destruct (document_events db) as [td|] eqn:Htd; [|discriminate].
  destruct (blockchain_events db) as [tc|] eqn:Htc; [|discriminate].
  intros [= <-]. split.
  - intros db' u Hins Hu.
    destruct (record_document_event_cases cast fresh now devent db)
      as [(t & v & d & Ht & Hv & _ & Heq) | [_ Heq]];
      rewrite Heq in Hins; [|discriminate Hins].
    injection Hins as <-. assert (v = u) as -> by congruence.
    assert (t = td) as -> by congruence.
    eexists. split.
    { rewrite get_system_analytics_unfold. simpl. rewrite Htc. reflexivity. }
    unfold system_body, system_stats; simpl.
    rewrite fmap_app, fmap_cons, fmap_nil, sql_count_distinct_snoc. simpl.
    fold (sql_count_when (fun r => de_event_type r = "generation"%string)
            (tbl_rows td ++ [stored_document_row fresh now u d devent])).
    rewrite sql_count_when_snoc. simpl. by repeat split.
  - intros db' Hins.
    destruct (record_blockchain_event_cases cast fresh now bevent db)
      as [(t & v & d & g & Ht & _ & _ & _ & Heq) | [_ Heq]];
      rewrite Heq in Hins; [|discriminate Hins].
    injection Hins as <-. assert (t = tc) as -> by congruence.
    eexists. split.
    { rewrite get_system_analytics_unfold. simpl. rewrite Htd. reflexivity. }
    unfold system_body, system_stats; simpl.
    rewrite sql_count_snoc. by repeat split.
Qed.

Lemma system_counters_step_witness :
  exists after,
    get_system_analytics
      (record_document_event hex_uuid 9%N 100
         (document_event "00000000-0000-0000-0000-000000000004" "generation"
            None None "success") five_documents).2 = Ok after /\
    total_users after = 4%Z /\
    total_documents after = 5%Z.
Proof.
  pose proof (system_counters_step hex_uuid 9%N 100%Z
                (document_event "00000000-0000-0000-0000-000000000004" "generation"
                   None None "success")
                (blockchain_event U1 None "success") five_documents) as T.
  destruct (get_system_analytics five_documents) as [before|c] eqn:E;
    [|vm_compute in E; discriminate E].
  destruct (T before eq_refl) as [Hdoc _].
  destruct (Hdoc _ 4%N eq_refl eq_refl) as (after & Hafter & Hdocs & Husers & _).
  exists after. split; [exact Hafter|].
  rewrite Husers, Hdocs. injection E as <-. split; vm_compute; reflexivity.
Defined.

Lemma sql_avg_snoc_null (cells : list (option Q)) :
  sql_avg (cells ++ [None]) = sql_avg cells.
Proof. unfold sql_avg. rewrite omap_app. simpl. by rewrite app_nil_r. Qed.

(** X15. The system averages look at successful events only.  Recording a
    document event that is not a successful 'generation' event, or that has
    no duration, leaves avg_document_generation_time as it was; recording a
    blockchain event that did not succeed, or has no duration, leaves
    avg_blockchain_transaction_time as it was. *)
Theorem system_averages_ignore_other_events cast fresh now devent bevent db before :
  get_system_analytics db = Ok before ->
  (event_type devent <> "generation"%string \/ status devent <> "success"%string \/
   duration_seconds devent = None ->
   forall after,
     get_system_analytics (record_document_event cast fresh now devent db).2
       = Ok after ->
     avg_document_generation_time after = avg_document_generation_time before) /\
  (b_status bevent <> "success"%string \/ b_duration_seconds bevent = None ->
   forall after,
     get_system_analytics (record_blockchain_event cast fresh now bevent db).2
       = Ok after ->
     avg_blockchain_transaction_time after = avg_blockchain_transaction_time before).
Proof.
  intros Hbefore. split.
  - intros Hother after.
    destruct (record_document_event_cases cast fresh now devent db)
      as [(t & v & d & Ht & _ & _ & ->) | [_ ->]]; simpl;
      [|by rewrite Hbefore; intros [= <-]].
    rewrite get_system_analytics_unfold in Hbefore |- *. simpl.
    rewrite Ht in Hbefore.
    destruct (blockchain_events db) as [tc|]; [|discriminate].
    injection Hbefore as <-. intros [= <-].
    unfold system_body, system_stats; simpl. f_equal.
    rewrite filter_app, filter_cons, filter_nil. simpl.
    destruct (decide (event_type devent = "generation"%string /\
                      status devent = "success"%string)) as [[Hty Hst]|Hno].
    + destruct Hother as [?|[?|Hdur]]; [done..|].
      rewrite fmap_app. simpl. rewrite Hdur. apply sql_avg_snoc_null.
    + by rewrite app_nil_r.
  - intros Hother after.
    destruct (record_blockchain_event_cases cast fresh now bevent db)
      as [(t & v & d & g & Ht & _ & _ & _ & ->) | [_ ->]]; simpl;
      [|by rewrite Hbefore; intros [= <-]].
    rewrite get_system_analytics_unfold in Hbefore |- *. simpl.
    rewrite Ht in Hbefore.
    destruct (document_events db) as [td|]; [|discriminate].
    injection Hbefore as <-. intros [= <-].
    unfold system_body, system_stats; simpl. f_equal.
    rewrite filter_app, filter_cons, filter_nil. simpl.
    destruct (decide (b_status bevent = "success"%string)) as [Hst|Hno].
    + destruct Hother as [?|Hdur]; [done|].
      rewrite fmap_app. simpl. rewrite Hdur. apply sql_avg_snoc_null.
    + by rewrite app_nil_r.
Qed.

Lemma system_averages_ignore_other_events_witness :
  exists after,
    get_system_analytics
      (record_document_event hex_uuid 9%N 100
         (document_event U1 "generation" None (Some 100) "error")
         eighth_of_a_second).2 = Ok after /\
    avg_document_generation_time after == 1 # 8.
Proof.
  pose proof (system_averages_ignore_other_events hex_uuid 9%N 100%Z
                (document_event U1 "generation" None (Some 100) "error")
                (blockchain_event U1 None "error") eighth_of_a_second) as T.
  destruct (get_system_analytics eighth_of_a_second) as [before|c] eqn:E;
    [|vm_compute in E; discriminate E].
  destruct (T before eq_refl) as [Hdoc _].
  destruct (get_system_analytics
              (record_document_event hex_uuid 9%N 100
                 (document_event U1 "generation" None (Some 100) "error")
                 eighth_of_a_second).2) as [after|c] eqn:E';
    [|vm_compute in E'; discriminate E'].
  exists after. split; [reflexivity|].
  assert (Hother :
    event_type (document_event U1 "generation" None (Some 100) "error")
      <> "generation"%string \/
    status (document_event U1 "generation" None (Some 100) "error")
      <> "success"%string \/
    duration_seconds (document_event U1 "generation" None (Some 100) "error")
      = None).
  { right. left. discriminate. }
  rewrite (Hdoc Hother after eq_refl).
  injection E as <-. reflexivity.
Defined.

Lemma length_remove_dups_le {K : Type} `{!EqDecision K} (l : list K) :
  (length (remove_dups l) <= length l)%nat.
Proof.
  induction l as [|x l IH]; simpl; [lia|]. case_decide; simpl; lia.
Qed.

Lemma remove_dups_nil_inv {K : Type} `{!EqDecision K} (l : list K) :
  remove_dups l = [] -> l = [].
Proof.
  destruct l as [|x l]; [done|]. intros H.
  assert (x ∈ remove_dups (x :: l)) as Hx by (apply elem_of_remove_dups; left).
  rewrite H in Hx. by apply elem_of_nil in Hx.
Qed.

(** X16. In every system summary, total_transactions is the number of rows
    of blockchain_events; total_documents and total_users lie between 0 and
    the number of rows of document_events; and total_users is 0 exactly when
    document_events is empty. *)
Theorem system_counts_bounded db body :
  get_system_analytics db = Ok body ->
  sys_total_transactions body = sql_count (rows_of (blockchain_events db)) /\
  (0 <= total_documents body <= sql_count (rows_of (document_events db)))%Z /\
  (0 <= total_users body <= sql_count (rows_of (document_events db)))%Z /\
  (total_users body = 0%Z <-> rows_of (document_events db) = []).
Proof.
  rewrite get_system_analytics_unfold.
  destruct (document_events db) as [td|]; [|discriminate].
  destruct (blockchain_events db) as [tc|]; [|discriminate].
  intros [= <-]. simpl. split; [done|]. split.
  { apply (sql_count_when_le (fun r => de_event_type r = "generation"%string)). }
  unfold sql_count_distinct, sql_count.
  pose proof (length_remove_dups_le (de_user_id <$> tbl_rows td)) as Hle.
  rewrite length_fmap in Hle. split; [lia|]. split.
  - intros H.
    assert (remove_dups (de_user_id <$> tbl_rows td) = []) as Hnil
      by (apply length_zero_iff_nil; lia).
    by apply remove_dups_nil_inv, fmap_nil_inv in Hnil.
  - by intros ->.
Qed.

Lemma system_counts_bounded_witness :
  exists body,
    get_system_analytics five_documents = Ok body /\
    (total_users body <= 5)%Z.
Proof.
  pose proof (system_counts_bounded five_documents) as T.
  destruct (get_system_analytics five_documents) as [body|c] eqn:E;
    [|vm_compute in E; discriminate E].
  exists body. split; [reflexivity|].
  destruct (T body eq_refl) as (_ & _ & [_ Hle] & _).
  etransitivity; [exact Hle|]. vm_compute. discriminate.
Defined.
